(** * SDLC Multi-Lingual DevStream: the stage workflow of the two Streamlit apps

    A shallow embedding of [src/streamlit.py] (the first revision) and
    [src/streamlit_final.py] (the final revision): the text helpers, the
    [SDLCState] record, the node functions, and the page script that
    dispatches on the current stage.

    Conventions of the embedding.
    - Python [str] is [string]; a character is a code point below 256.
    - A dictionary key holding [None] is [None : option string].
    - The script mutates one dictionary in place.  A node function that
      raises therefore leaves its partial writes behind: an [outcome]
      carries the dictionary as it is when control leaves the function.
    - The language model is a parameter: [None] when the global [llm] is
      not initialised, otherwise a function from the rendered prompt to a
      reply, which is either text or an exception. *)

From Stdlib Require Import List Bool Arith Lia Ascii String.
Import ListNotations.
Open Scope string_scope.
Open Scope bool_scope.

(** ** Python string operations *)

Module PyStr.

(** [str.isspace] on code points below 256: TAB..CR, FS..US, SPACE,
    NEL (0x85) and NBSP (0xA0). *)
Definition isspace (c : ascii) : bool :=
  let n := nat_of_ascii c in
  (((9 <=? n) && (n <=? 13)) || ((28 <=? n) && (n <=? 32))
   || (n =? 133) || (n =? 160))%nat.

(** [str.lower] on one code point below 256: A..Z and the Latin-1 capitals
    (0xC0..0xDE without the multiplication sign 0xD7) move up by 32. *)
Definition lower_char (c : ascii) : ascii :=
  let n := nat_of_ascii c in
  if (((65 <=? n) && (n <=? 90))
      || ((192 <=? n) && (n <=? 222) && negb (n =? 215)))%nat
  then ascii_of_nat (n + 32) else c.

Fixpoint lower (s : string) : string :=
  match s with
  | EmptyString => EmptyString
  | String c s' => String (lower_char c) (lower s')
  end.

(** [str.upper] restricted to a..z; the script applies it to the literal
    decision "passed" only. *)
Definition upper_char (c : ascii) : ascii :=
  let n := nat_of_ascii c in
  if ((97 <=? n) && (n <=? 122))%nat then ascii_of_nat (n - 32) else c.

Fixpoint upper (s : string) : string :=
  match s with
  | EmptyString => EmptyString
  | String c s' => String (upper_char c) (upper s')
  end.

Fixpoint lstrip (s : string) : string :=
  match s with
  | EmptyString => EmptyString
  | String c s' => if isspace c then lstrip s' else s
  end.

Fixpoint rstrip (s : string) : string :=
  match s with
  | EmptyString => EmptyString
  | String c s' =>
      match rstrip s' with
      | EmptyString => if isspace c then EmptyString else String c EmptyString
      | r => String c r
      end
  end.

(** [s.strip()] *)
Definition strip (s : string) : string := rstrip (lstrip s).

(** [s[n:]] *)
Fixpoint skip (n : nat) (s : string) : string :=
  match n, s with
  | O, _ => s
  | S n', String _ s' => skip n' s'
  | S _, EmptyString => EmptyString
  end.

(** [s[:n]] *)
Fixpoint take (n : nat) (s : string) : string :=
  match n, s with
  | O, _ => EmptyString
  | S n', String c s' => String c (take n' s')
  | S _, EmptyString => EmptyString
  end.

(** [s.startswith(p)] *)
Definition startswith (p s : string) : bool := prefix p s.

(** [s.endswith(p)] *)
Definition endswith (p s : string) : bool :=
  (length p <=? length s)%nat && (skip (length s - length p) s =? p).

(** [needle in hay] *)
Fixpoint contains (needle hay : string) : bool :=
  prefix needle hay
  || match hay with
     | EmptyString => false
     | String _ hay' => contains needle hay'
     end.

(** [s.split(sep, 1)[1]]: the text after the first occurrence of [sep];
    [None] where Python raises IndexError because [sep] does not occur. *)
Fixpoint split_1 (sep s : string) : option string :=
  if prefix sep s then Some (skip (length sep) s)
  else match s with
       | EmptyString => None
       | String _ s' => split_1 sep s'
       end.

(** The line feed of the fenced blocks. *)
Definition nl : string := String (ascii_of_nat 10) EmptyString.

Definition fence : string := "```".

(** Every character is white space. *)
Fixpoint blank (s : string) : bool :=
  match s with
  | EmptyString => true
  | String c s' => isspace c && blank s'
  end.

End PyStr.
Import PyStr.

(** Truth value of an [Optional[str]]: [None] and the empty string are false. *)
Definition truthy (o : option string) : bool :=
  match o with
  | Some (String _ _) => true
  | _ => false
  end.

(** How an f-string renders an [Optional[str]]. *)
Definition fmt (o : option string) : string :=
  match o with
  | Some s => s
  | None => "None"
  end.

(** [clean_llm_code_output], identical in both revisions. *)
Definition clean_llm_code_output (content : string) (language : option string)
  : string :=
  let content := strip content in
  let language_tag_start :=
    strip (fence ++ match language with
                    | Some (String _ _ as l) => lower l
                    | _ => ""
                    end) in
  let content :=
    if truthy language && startswith language_tag_start content
    then skip (length language_tag_start) content
    else if startswith fence content then skip 3 content
    else content in
  let content :=
    if endswith fence content then take (length content - 3) content
    else content in
  strip content.


(** ** The shared work record *)

(** The two revisions of the script. *)
Inductive revision := First | Final.

(** [SDLCState].  [stage] and [decision] are plain strings in the script
    (the [Literal] annotation is not enforced), and [deployment_reasoning]
    is the extra key the final revision's [deploy] writes. *)
Record SDLCState := mkState {
  stage : string;
  user_input : string;
  target_language : option string;
  user_stories : option string;
  design_docs : option string;
  code : option string;
  test_cases : option string;
  decision : option string;
  feedback : option string;
  history : list (string * string);
  deployment_reasoning : option string
}.

Definition with_stage (v : string) (s : SDLCState) : SDLCState :=
  mkState v (user_input s) (target_language s) (user_stories s) (design_docs s)
    (code s) (test_cases s) (decision s) (feedback s) (history s)
    (deployment_reasoning s).

Definition with_user_input (v : string) (s : SDLCState) : SDLCState :=
  mkState (stage s) v (target_language s) (user_stories s) (design_docs s)
    (code s) (test_cases s) (decision s) (feedback s) (history s)
    (deployment_reasoning s).

Definition with_target_language (v : option string) (s : SDLCState) : SDLCState :=
  mkState (stage s) (user_input s) v (user_stories s) (design_docs s)
    (code s) (test_cases s) (decision s) (feedback s) (history s)
    (deployment_reasoning s).

Definition with_user_stories (v : option string) (s : SDLCState) : SDLCState :=
  mkState (stage s) (user_input s) (target_language s) v (design_docs s)
    (code s) (test_cases s) (decision s) (feedback s) (history s)
    (deployment_reasoning s).

Definition with_design_docs (v : option string) (s : SDLCState) : SDLCState :=
  mkState (stage s) (user_input s) (target_language s) (user_stories s) v
    (code s) (test_cases s) (decision s) (feedback s) (history s)
    (deployment_reasoning s).

Definition with_code (v : option string) (s : SDLCState) : SDLCState :=
  mkState (stage s) (user_input s) (target_language s) (user_stories s)
    (design_docs s) v (test_cases s) (decision s) (feedback s) (history s)
    (deployment_reasoning s).

Definition with_test_cases (v : option string) (s : SDLCState) : SDLCState :=
  mkState (stage s) (user_input s) (target_language s) (user_stories s)
    (design_docs s) (code s) v (decision s) (feedback s) (history s)
    (deployment_reasoning s).

Definition with_decision (v : option string) (s : SDLCState) : SDLCState :=
  mkState (stage s) (user_input s) (target_language s) (user_stories s)
    (design_docs s) (code s) (test_cases s) v (feedback s) (history s)
    (deployment_reasoning s).

Definition with_feedback (v : option string) (s : SDLCState) : SDLCState :=
  mkState (stage s) (user_input s) (target_language s) (user_stories s)
    (design_docs s) (code s) (test_cases s) (decision s) v (history s)
    (deployment_reasoning s).

Definition with_history (v : list (string * string)) (s : SDLCState) : SDLCState :=
  mkState (stage s) (user_input s) (target_language s) (user_stories s)
    (design_docs s) (code s) (test_cases s) (decision s) (feedback s) v
    (deployment_reasoning s).

Definition with_deployment_reasoning (v : option string) (s : SDLCState)
  : SDLCState :=
  mkState (stage s) (user_input s) (target_language s) (user_stories s)
    (design_docs s) (code s) (test_cases s) (decision s) (feedback s)
    (history s) v.

(** The record built at start-up and by "Start New Workflow". *)
Definition initial_state : SDLCState :=
  mkState "User Input" "" None None None None None None None [] None.

(** [state['decision'] == d] *)
Definition decision_is (d : string) (s : SDLCState) : bool :=
  match decision s with
  | Some x => x =? d
  | None => false
  end.

(** ** The language model and the outcome of a call *)

(** A rendered prompt: the node that builds it and the values it
    interpolates, in order.  The fixed prose of the templates is left out. *)
Record prompt := mkPrompt { node : string; slots : list string }.

(** The prompt as the text shown by [st.code(prompt)]. *)
Definition render (p : prompt) : string := concat nl (node p :: slots p).

(** What [llm.invoke] does: it returns [result.content] or raises. *)
Inductive reply :=
| Content (text : string)
| Failure (e : string).

Definition service := prompt -> reply.

(** A call either returns or raises; both carry the dictionary as the
    call leaves it. *)
Inductive outcome (A : Type) :=
| Returned (a : A)
| Raised (e : string) (a : A).
Arguments Returned {A} a.
Arguments Raised {A} e a.

Definition state_after {A : Type} (o : outcome A) : A :=
  match o with
  | Returned a => a
  | Raised _ a => a
  end.

Definition raised {A : Type} (o : outcome A) : bool :=
  match o with
  | Returned _ => false
  | Raised _ _ => true
  end.

Definition bind {A B : Type} (o : outcome A) (lift : A -> B) (k : A -> outcome B)
  : outcome B :=
  match o with
  | Returned a => k a
  | Raised e a => Raised e (lift a)
  end.

(** [None.lower()] and [None.capitalize()] *)
Definition no_lower : string :=
  "AttributeError: 'NoneType' object has no attribute 'lower'".
Definition no_capitalize : string :=
  "AttributeError: 'NoneType' object has no attribute 'capitalize'".
Definition no_concat : string :=
  "TypeError: can only concatenate str (not 'NoneType') to str".
Definition no_index : string := "IndexError: list index out of range".

(** ** The node functions *)

Section Nodes.

Variable rev : revision.
Variable llm : option service.

(** [state["history"].append(entry)]: present in the final revision only. *)
Definition history_append (entry : string * string) (state : SDLCState)
  : SDLCState :=
  match rev with
  | First => state
  | Final => with_history (history state ++ [entry])%list state
  end.

(** The if/elif/else that reads a reviewer's answer.  [approved] is the
    approval test of the node ([startswith] or [==]), [unclear] builds the
    message stored when neither shape matches.  The decision is written
    before the feedback, so a raise between the two leaves it behind. *)
Definition review_verdict (approved : string -> bool)
    (unclear : string -> string) (content : string) (state : SDLCState)
  : outcome SDLCState :=
  if approved content then
    Returned (with_feedback None (with_decision (Some "approved") state))
  else if startswith "feedback:" content then
    match split_1 "feedback:" content with
    | Some rest =>
        Returned (with_feedback (Some (strip rest))
                   (with_decision (Some "feedback") state))
    | None => Raised no_index (with_decision (Some "feedback") state)
    end
  else
    Returned (with_feedback (Some (unclear content))
               (with_decision (Some "feedback") state)).

Definition generate_user_stories_prompt (state : SDLCState) : prompt :=
  mkPrompt "generate_user_stories" [user_input state].

Definition generate_user_stories (state : SDLCState) : outcome SDLCState :=
  match llm with
  | Some invoke =>
      match invoke (generate_user_stories_prompt state) with
      | Content content =>
          Returned (history_append ("generate_user_stories", content)
                     (with_stage "Product Owner Review"
                       (with_user_stories (Some content) state)))
      | Failure e => Raised e state
      end
  | None => Returned state
  end.

Definition product_owner_review_prompt (state : SDLCState) : prompt :=
  mkPrompt "product_owner_review" [fmt (user_stories state)].

Definition product_owner_review (state : SDLCState) : outcome SDLCState :=
  match llm with
  | Some invoke =>
      match invoke (product_owner_review_prompt state) with
      | Content raw =>
          let content := lower (strip raw) in
          bind (review_verdict (startswith "approved")
                  (fun c => "LLM response unclear, please manually review and revise: '"
                            ++ c ++ "'")
                  content state)
               (fun s => s)
               (fun s => Returned (history_append ("product_owner_review", raw) s))
      | Failure e => Raised e state
      end
  | None => Returned state
  end.

Definition revise_user_stories_prompt (state : SDLCState) : prompt :=
  mkPrompt "revise_user_stories"
    [fmt (feedback state); fmt (user_stories state); user_input state].

Definition revise_user_stories (state : SDLCState) : outcome SDLCState :=
  if negb (truthy (feedback state)) then
    Returned (with_stage "Product Owner Review" state)
  else
    match llm with
    | Some invoke =>
        match invoke (revise_user_stories_prompt state) with
        | Content content =>
            Returned (history_append ("revise_user_stories", content)
                       (with_stage "Product Owner Review"
                         (with_feedback None
                           (with_decision None
                             (with_user_stories (Some content) state)))))
        | Failure e => Raised e state
        end
    | None => Returned state
    end.

Definition create_design_docs_prompt (state : SDLCState) : prompt :=
  mkPrompt "create_design_docs"
    [fmt (target_language state); fmt (user_stories state)].

Definition create_design_docs (state : SDLCState) : outcome SDLCState :=
  match llm with
  | Some invoke =>
      match invoke (create_design_docs_prompt state) with
      | Content content =>
          Returned (history_append ("create_design_docs", content)
                     (with_stage "Design Review"
                       (with_design_docs (Some content) state)))
      | Failure e => Raised e state
      end
  | None => Returned state
  end.

Definition design_review_prompt (state : SDLCState) : prompt :=
  mkPrompt "design_review"
    [fmt (target_language state); fmt (design_docs state);
     fmt (user_stories state)].

Definition design_review (state : SDLCState) : outcome SDLCState :=
  match llm with
  | Some invoke =>
      match invoke (design_review_prompt state) with
      | Content raw =>
          let content := lower (strip raw) in
          bind (review_verdict (startswith "approved")
                  (fun c => "LLM response unclear, please manually review and revise: '"
                            ++ c ++ "'")
                  content state)
               (fun s => s)
               (fun s => Returned (history_append ("design_review", raw) s))
      | Failure e => Raised e state
      end
  | None => Returned state
  end.

Definition revise_design_docs_prompt (state : SDLCState) : prompt :=
  mkPrompt "revise_design_docs"
    [fmt (target_language state); fmt (feedback state);
     fmt (design_docs state); fmt (user_stories state)].

Definition revise_design_docs (state : SDLCState) : outcome SDLCState :=
  match llm, truthy (feedback state) with
  | Some invoke, true =>
      match invoke (revise_design_docs_prompt state) with
      | Content content =>
          Returned (history_append ("revise_design_docs", content)
                     (with_stage "Design Review"
                       (with_feedback None
                         (with_decision None
                           (with_design_docs (Some content) state)))))
      | Failure e => Raised e state
      end
  | _, false =>
      Returned (history_append
                  ("revise_design_docs",
                   "No feedback provided. Skipping design document revision.")
                  (with_stage "Design Review" state))
  | None, true => Returned state
  end.

Definition generate_code_prompt (state : SDLCState) : prompt :=
  mkPrompt "generate_code"
    [fmt (target_language state); fmt (design_docs state);
     fmt (user_stories state)].

Definition generate_code (state : SDLCState) : outcome SDLCState :=
  let language := target_language state in
  if negb (truthy language) then Returned (with_stage "User Input" state)
  else
    match llm with
    | Some invoke =>
        match invoke (generate_code_prompt state) with
        | Content raw =>
            let content := clean_llm_code_output raw language in
            Returned (history_append ("generate_code", content)
                       (with_stage "Code Review"
                         (with_code (Some content) state)))
        | Failure e => Raised e state
        end
    | None => Returned state
    end.

Definition code_review_prompt (state : SDLCState) : prompt :=
  mkPrompt "code_review"
    [fmt (target_language state); fmt (design_docs state); fmt (code state)].

Definition code_review (state : SDLCState) : outcome SDLCState :=
  let language := target_language state in
  match llm with
  | Some invoke =>
      match invoke (code_review_prompt state) with
      | Content raw =>
          let content := lower (strip raw) in
          bind (review_verdict (startswith "approved")
                  (fun c => "LLM response unclear (" ++ fmt language
                            ++ " Code Review), please manually review and revise: '"
                            ++ c ++ "'")
                  content state)
               (fun s => s)
               (fun s => Returned (history_append ("code_review", raw) s))
      | Failure e => Raised e state
      end
  | None => Returned state
  end.

Definition fix_code_review_prompt (state : SDLCState) : prompt :=
  mkPrompt "fix_code_review"
    [fmt (target_language state); fmt (feedback state); fmt (code state);
     fmt (design_docs state)].

(** [code_lang_tag = language.lower()] comes first and raises on [None]. *)
Definition fix_code_review (state : SDLCState) : outcome SDLCState :=
  match target_language state with
  | None => Raised no_lower state
  | Some language =>
      match llm, truthy (feedback state) with
      | Some invoke, true =>
          match invoke (fix_code_review_prompt state) with
          | Content raw =>
              let content := clean_llm_code_output raw (Some language) in
              Returned (history_append ("fix_code_review", content)
                         (with_stage "Code Review"
                           (with_feedback None
                             (with_decision None
                               (with_code (Some content) state)))))
          | Failure e => Raised e state
          end
      | _, false =>
          Returned (history_append
                      ("fix_code_review",
                       "No feedback provided. Skipping code fixing.")
                      (with_stage "Code Review" state))
      | None, true => Returned state
      end
  end.

Definition security_review_prompt (state : SDLCState) : prompt :=
  mkPrompt "security_review"
    [fmt (target_language state); fmt (design_docs state); fmt (code state)].

(** The missing-code exit comes before ['python' in language.lower()],
    which raises on [None]. *)
Definition security_review (state : SDLCState) : outcome SDLCState :=
  let language := target_language state in
  if negb (truthy (code state)) then
    Returned (with_feedback (Some "No code available for security review.")
               (with_decision (Some "feedback") state))
  else
    match language with
    | None => Raised no_lower state
    | Some lang =>
        match llm with
        | Some invoke =>
            match invoke (security_review_prompt state) with
            | Content raw =>
                let content := lower (strip raw) in
                bind (review_verdict (startswith "approved")
                        (fun c => "Potential security concerns identified ("
                                  ++ lang ++ "): " ++ c)
                        content state)
                     (fun s => s)
                     (fun s =>
                        Returned (history_append ("security_review", raw)
                                   (with_stage "Security Review" s)))
            | Failure e => Raised e state
            end
        | None =>
            Returned (with_stage "Security Review"
                       (with_feedback
                          (Some "LLM not initialized, skipping security review.")
                          (with_decision (Some "feedback") state)))
        end
    end.

Definition fix_security_issues_prompt (state : SDLCState) : prompt :=
  mkPrompt "fix_security_issues"
    [fmt (target_language state); fmt (feedback state); fmt (code state);
     fmt (design_docs state)].

Definition fix_security_issues (state : SDLCState) : outcome SDLCState :=
  match target_language state with
  | None => Raised no_lower state
  | Some language =>
      if negb (truthy (feedback state)) then
        Returned (with_stage "Security Review" state)
      else
        match llm with
        | Some invoke =>
            match invoke (fix_security_issues_prompt state) with
            | Content raw =>
                let content := clean_llm_code_output raw (Some language) in
                Returned (history_append ("fix_security_issues", content)
                           (with_stage "Security Review"
                             (with_feedback None
                               (with_decision None
                                 (with_code (Some content) state)))))
            | Failure e => Raised e state
            end
        | None => Returned state
        end
  end.

Definition write_test_cases_prompt (state : SDLCState) : prompt :=
  mkPrompt "write_test_cases" [fmt (target_language state); fmt (code state)].

Definition write_test_cases (state : SDLCState) : outcome SDLCState :=
  match target_language state with
  | None => Raised no_lower state
  | Some language =>
      match llm with
      | Some invoke =>
          match invoke (write_test_cases_prompt state) with
          | Content raw =>
              let content := clean_llm_code_output raw (Some language) in
              Returned (history_append ("write_test_cases", content)
                         (with_stage "Test Case Review"
                           (with_test_cases (Some content) state)))
          | Failure e => Raised e state
          end
      | None => Returned state
      end
  end.

Definition review_test_cases_prompt (state : SDLCState) : prompt :=
  mkPrompt "review_test_cases"
    [fmt (target_language state); fmt (code state); fmt (test_cases state)].

(** The approval test of this node is [content == "approved"]. *)
Definition review_test_cases (state : SDLCState) : outcome SDLCState :=
  match target_language state with
  | None => Raised no_lower state
  | Some language =>
      match llm with
      | Some invoke =>
          match invoke (review_test_cases_prompt state) with
          | Content raw =>
              let content := lower (strip raw) in
              bind (review_verdict (fun c => c =? "approved")
                      (fun c => "LLM response unclear (" ++ language
                                ++ " Test Review), please manually review and revise: '"
                                ++ c ++ "'")
                      content state)
                   (fun s => s)
                   (fun s => Returned (history_append ("review_test_cases", raw) s))
          | Failure e => Raised e state
          end
      | None => Returned state
      end
  end.

Definition fix_test_cases_prompt (state : SDLCState) : prompt :=
  mkPrompt "fix_test_cases"
    [fmt (target_language state); fmt (feedback state);
     fmt (test_cases state); fmt (code state)].

Definition fix_test_cases (state : SDLCState) : outcome SDLCState :=
  match target_language state with
  | None => Raised no_lower state
  | Some language =>
      match llm, truthy (feedback state) with
      | Some invoke, true =>
          match invoke (fix_test_cases_prompt state) with
          | Content raw =>
              let content := clean_llm_code_output raw (Some language) in
              Returned (history_append ("fix_test_cases", content)
                         (with_stage "Test Case Review"
                           (with_feedback None
                             (with_decision None
                               (with_test_cases (Some content) state)))))
          | Failure e => Raised e state
          end
      | _, false =>
          Returned (history_append
                      ("fix_test_cases",
                       "No feedback provided. Skipping test case fixing.")
                      (with_stage "Test Case Review" state))
      | None, true => Returned state
      end
  end.

Definition qa_testing_prompt (state : SDLCState) : prompt :=
  mkPrompt "qa_testing"
    [fmt (target_language state); fmt (code state); fmt (test_cases state)].

(** The PASS/FAIL reading shared by both revisions of [qa_testing]. *)
Definition qa_verdict (content : string) (state : SDLCState)
  : outcome SDLCState :=
  if startswith "PASS:" content then
    match split_1 "PASS:" content with
    | Some rest =>
        Returned (with_feedback (Some (strip rest))
                   (with_decision (Some "passed") state))
    | None => Raised no_index (with_decision (Some "passed") state)
    end
  else if startswith "FAIL:" content then
    match split_1 "FAIL:" content with
    | Some rest =>
        Returned (with_feedback (Some (strip rest))
                   (with_decision (Some "failed") state))
    | None => Raised no_index (with_decision (Some "failed") state)
    end
  else
    Returned (with_feedback
                (Some ("AI QA analysis returned an unexpected response: '"
                       ++ content ++ "'. Manual review recommended."))
                (with_decision (Some "failed") state)).

(** [state["history"].append(entry)] written out. *)
Definition log (entry : string * string) (state : SDLCState) : SDLCState :=
  with_history (history state ++ [entry])%list state.

(** [qa_testing].  The first revision calls the model unprotected; the
    final revision wraps the call and the reading of the answer in
    [try ... except Exception], whose handler stores the decision "error". *)
Definition qa_testing (show_llm_details : bool) (state : SDLCState)
  : outcome SDLCState :=
  if negb (truthy (code state)) || negb (truthy (test_cases state)) then
    Returned (with_stage "QA Testing"
               (with_feedback (Some "Code or test cases not found.")
                 (with_decision (Some "failed") state)))
  else
    match rev with
    | First =>
        match llm with
        | Some invoke =>
            match invoke (qa_testing_prompt state) with
            | Content raw =>
                bind (qa_verdict (strip raw) state) (fun s => s)
                     (fun s => Returned (with_stage "QA Testing" s))
            | Failure e => Raised e state
            end
        | None =>
            Returned (with_stage "QA Testing"
                       (with_feedback (Some "Basic QA simulation passed.")
                         (with_decision (Some "passed") state)))
        end
    | Final =>
        match llm with
        | Some invoke =>
            let state :=
              if show_llm_details
              then log ("qa_testing_prompt", render (qa_testing_prompt state)) state
              else state in
            let attempt :=
              match invoke (qa_testing_prompt state) with
              | Content raw =>
                  let content := strip raw in
                  let state :=
                    if show_llm_details
                    then log ("qa_testing_raw_output", content) state
                    else state in
                  bind (qa_verdict content state) (fun s => s)
                       (fun s =>
                          Returned (with_stage "QA Testing"
                                     (log ("qa_testing_result", content) s)))
              | Failure e => Raised e state
              end in
            match attempt with
            | Returned s => Returned s
            | Raised e s =>
                Returned (with_stage "QA Testing"
                           (log ("qa_testing_error", e)
                             (with_feedback
                                (Some ("Error during AI QA analysis: " ++ e
                                       ++ ". Manual review required."))
                                (with_decision (Some "error") s))))
            end
        | None =>
            Returned (with_stage "QA Testing"
                       (log ("qa_testing_simulation", "Basic QA simulation passed.")
                         (with_feedback (Some "Basic QA simulation passed.")
                           (with_decision (Some "passed") state))))
        end
    end.

Definition deploy_prompt (state : SDLCState) : prompt :=
  mkPrompt "deploy"
    [fmt (target_language state); upper (fmt (decision state));
     fmt (feedback state); fmt (code state)].

(** [deploy].  The first revision only sets the stage.  The final revision
    checks the last decision first; the stage is written before the
    failure reason is concatenated, and ["..." + None] raises. *)
Definition deploy (show_llm_details : bool) (state : SDLCState)
  : outcome SDLCState :=
  match rev with
  | First => Returned (with_stage "Deployed" state)
  | Final =>
      let qa_feedback := feedback state in
      if negb (decision_is "passed" state) then
        match qa_feedback with
        | Some reason =>
            Returned (with_feedback
                        (Some ("Deployment halted due to failed QA testing. Reason: "
                               ++ reason))
                        (with_stage "Deployment Failed" state))
        | None => Raised no_concat (with_stage "Deployment Failed" state)
        end
      else
        match llm with
        | Some invoke =>
            match invoke (deploy_prompt state) with
            | Content raw =>
                let reasoning := strip raw in
                Returned (with_stage "Deployed"
                           (log ("deploy", reasoning)
                             (with_deployment_reasoning (Some reasoning) state)))
            | Failure e =>
                Returned (with_stage "Deployed"
                           (log ("deploy", "Error during LLM reasoning: " ++ e)
                             (with_deployment_reasoning
                                (Some ("Error during AI deployment reasoning: " ++ e))
                                state)))
            end
        | None =>
            Returned (with_stage "Deployed"
                       (log ("deploy",
                             "Basic deployment simulation successful as QA passed.")
                         (with_deployment_reasoning
                            (Some "Basic deployment simulation successful as QA passed.")
                            state)))
        end
  end.

End Nodes.

(** ** The page script *)

(** [st.session_state]: the work record and the two flags.  The key
    [feedback_input] is left out: the script only ever stores "" in it. *)
Record session := mkSession {
  app_state : SDLCState;
  show_feedback_box : bool;
  show_llm_details : bool
}.

Definition with_app_state (v : SDLCState) (s : session) : session :=
  mkSession v (show_feedback_box s) (show_llm_details s).

Definition with_show_feedback_box (v : bool) (s : session) : session :=
  mkSession (app_state s) v (show_llm_details s).

Definition initial_session : session := mkSession initial_state false false.

(** What the user did to trigger this run of the script.  A button that the
    current stage does not draw cannot be pressed; such a click is handled
    as a plain rerun. *)
Inductive click :=
| NoClick
| StartSDLC (user_input_area target_lang_input : string)
| AskAI
| ApproveManually
| ProvideFeedback
| SubmitFeedback (feedback_text : string)
| OtherButton
| StartNewWorkflow.

Definition nonempty (s : string) : bool :=
  match s with
  | EmptyString => false
  | String _ _ => true
  end.

(** The display area above the dispatch: with code or test cases present it
    evaluates [current_state.get('target_language', ...).capitalize()]. *)
Definition display_area (sess : session) : outcome session :=
  let current_state := app_state sess in
  if (truthy (code current_state) || truthy (test_cases current_state))
     && negb (match target_language current_state with
              | Some _ => true
              | None => false
              end)
  then Raised no_capitalize sess
  else Returned sess.

Section Script.

Variable rev : revision.
Variable llm : option service.

(** [st.session_state.app_state = node(current_state)] *)
Definition run_node (node : SDLCState -> outcome SDLCState) (sess : session)
  : outcome session :=
  bind (node (app_state sess)) (fun s => with_app_state s sess)
       (fun s => Returned (with_app_state s sess)).

(** [lang = current_state.get('target_language', ...).capitalize()] at the
    head of a branch. *)
Definition with_lang (sess : session) (k : outcome session) : outcome session :=
  match target_language (app_state sess) with
  | Some _ => k
  | None => Raised no_capitalize sess
  end.

(** The body of a review branch: the AI button, the manual approval, the
    button that opens the feedback box and the submit button inside it. *)
Definition review_stage (reviewer : SDLCState -> outcome SDLCState)
    (approved_stage feedback_stage : string) (ev : click) (sess : session)
  : outcome session :=
  match ev with
  | AskAI =>
      bind (reviewer (app_state sess)) (fun s => with_app_state s sess)
           (fun s =>
              Returned (with_app_state
                          (if decision_is "approved" s
                           then with_stage approved_stage s
                           else if decision_is "feedback" s
                           then with_stage feedback_stage s
                           else s)
                          sess))
  | ApproveManually =>
      Returned (with_show_feedback_box false
                 (with_app_state
                    (with_stage approved_stage
                      (with_feedback None
                        (with_decision (Some "approved") (app_state sess))))
                    sess))
  | ProvideFeedback => Returned (with_show_feedback_box true sess)
  | SubmitFeedback feedback_text =>
      if show_feedback_box sess && nonempty feedback_text then
        Returned (with_show_feedback_box false
                   (with_app_state
                      (with_stage feedback_stage
                        (with_feedback (Some feedback_text)
                          (with_decision (Some "feedback") (app_state sess))))
                      sess))
      else Returned sess
  | _ => Returned sess
  end.

(** The if/elif chain on [current_state['stage']]. *)
Definition main_interaction (ev : click) (sess : session) : outcome session :=
  let current_state := app_state sess in
  let s := stage current_state in
  if s =? "User Input" then
    match ev with
    | StartSDLC user_input_area target_lang_input =>
        if nonempty user_input_area && nonempty target_lang_input then
          Returned (with_app_state
                     (with_stage "Generate User Stories"
                       (with_target_language
                          (Some (lower (strip target_lang_input)))
                          (with_user_input user_input_area current_state)))
                     sess)
        else Returned sess
    | _ => Returned sess
    end
  else if s =? "Generate User Stories" then
    run_node (generate_user_stories rev llm) sess
  else if s =? "Product Owner Review" then
    review_stage (product_owner_review rev llm)
      "Create Design Docs" "Revise User Stories" ev sess
  else if s =? "Revise User Stories" then
    run_node (revise_user_stories rev llm) sess
  else if s =? "Create Design Docs" then
    run_node (create_design_docs rev llm) sess
  else if s =? "Design Review" then
    review_stage (design_review rev llm)
      "Generate Code" "Revise Design Docs" ev sess
  else if s =? "Revise Design Docs" then
    run_node (revise_design_docs rev llm) sess
  else if s =? "Generate Code" then
    with_lang sess (run_node (generate_code rev llm) sess)
  else if s =? "Code Review" then
    with_lang sess
      (review_stage (code_review rev llm)
         "Security Review" "Fix Code Review" ev sess)
  else if s =? "Fix Code Review" then
    with_lang sess (run_node (fix_code_review rev llm) sess)
  else if s =? "Security Review" then
    with_lang sess
      (review_stage (security_review rev llm)
         "Write Test Cases" "Fix Security" ev sess)
  else if s =? "Fix Security" then
    with_lang sess (run_node (fix_security_issues rev llm) sess)
  else if s =? "Write Test Cases" then
    with_lang sess (run_node (write_test_cases rev llm) sess)
  else if s =? "Test Case Review" then
    with_lang sess
      (review_stage (review_test_cases rev llm)
         "QA Testing" "Fix Test Cases" ev sess)
  else if s =? "Fix Test Cases" then
    with_lang sess (run_node (fix_test_cases rev llm) sess)
  else if s =? "QA Testing" then
    match rev with
    | First =>
        with_lang sess
          (bind (qa_testing rev llm false current_state)
                (fun s => with_app_state s sess)
                (fun s =>
                   Returned (with_app_state
                               (if decision_is "passed" s
                                then with_stage "Deploy" s
                                else with_stage "Code Review" s)
                               sess)))
    | Final =>
        bind (qa_testing rev llm (show_llm_details sess) current_state)
             (fun s => with_app_state s sess)
             (fun s =>
                Returned (with_app_state
                            (if decision_is "passed" s
                             then with_stage "Deploy" s
                             else with_stage "Generate Code" s)
                            sess))
    end
  else if s =? "Deploy" then
    (* ['deploy' in locals()] holds: the function is defined at module level *)
    with_lang sess
      (bind (deploy rev llm false current_state)
            (fun s => with_app_state s sess)
            (fun s => Returned (with_app_state (with_stage "Deployed" s) sess)))
  else if s =? "Deployed" then
    with_lang sess
      match ev with
      | StartNewWorkflow => Returned (mkSession initial_state false false)
      | _ => Returned sess
      end
  else Returned sess.

(** One run of the script: the display area, then the dispatch. *)
Definition script_run (ev : click) (sess : session) : outcome session :=
  bind (display_area sess) (fun s => s) (main_interaction ev).

End Script.

(** The sessions the script can get into, whatever the model answers and
    whatever the user clicks. *)
Inductive reachable (rev : revision) : session -> Prop :=
| reach_start : reachable rev initial_session
| reach_run : forall llm ev sess,
    reachable rev sess ->
    reachable rev (state_after (script_run rev llm ev sess)).

(** ** The stage graph of the specification *)

(** The stages of the transition table. *)
Inductive Stage :=
| InitialInput | GenerateStories | StoryReview | ReviseStories
| DesignGen | DesignReview | ReviseDesign
| CodeGen | CodeReview | FixCode
| SecurityReview | FixSecurity
| WriteTests | TestReview | FixTests
| QA | Deploy | Deployed | DeploymentFailed.

(** The string the script stores in [state['stage']] for each stage. *)
Definition stage_name (s : Stage) : string :=
  match s with
  | InitialInput => "User Input"
  | GenerateStories => "Generate User Stories"
  | StoryReview => "Product Owner Review"
  | ReviseStories => "Revise User Stories"
  | DesignGen => "Create Design Docs"
  | DesignReview => "Design Review"
  | ReviseDesign => "Revise Design Docs"
  | CodeGen => "Generate Code"
  | CodeReview => "Code Review"
  | FixCode => "Fix Code Review"
  | SecurityReview => "Security Review"
  | FixSecurity => "Fix Security"
  | WriteTests => "Write Test Cases"
  | TestReview => "Test Case Review"
  | FixTests => "Fix Test Cases"
  | QA => "QA Testing"
  | Deploy => "Deploy"
  | Deployed => "Deployed"
  | DeploymentFailed => "Deployment Failed"
  end.

(** The table of the specification, row by row: the targets of the columns
    "on success" and "on missing precondition". *)
Definition declared_successors (s : Stage) : list Stage :=
  match s with
  | InitialInput => [GenerateStories; InitialInput]
  | GenerateStories => [StoryReview]
  | StoryReview => [DesignGen; ReviseStories]
  | ReviseStories => [StoryReview]
  | DesignGen => [DesignReview]
  | DesignReview => [CodeGen; ReviseDesign]
  | ReviseDesign => [DesignReview]
  | CodeGen => [CodeReview; InitialInput]
  | CodeReview => [SecurityReview; FixCode]
  | FixCode => [CodeReview]
  | SecurityReview => [WriteTests; FixSecurity]
  | FixSecurity => [SecurityReview]
  | WriteTests => [TestReview]
  | TestReview => [QA; FixTests]
  | FixTests => [TestReview]
  | QA => [Deploy; CodeGen; QA]
  | Deploy => [Deployed; DeploymentFailed]
  | Deployed => []
  | DeploymentFailed => []
  end.

Definition Stage_eqb (a b : Stage) : bool := stage_name a =? stage_name b.

(** [s'] may follow [s]: it is a declared successor, or the stage stays. *)
Definition follows (s s' : Stage) : bool :=
  Stage_eqb s s' || existsb (Stage_eqb s') (declared_successors s).

(** One run of the script keeps to the table: started in stage [s] by
    anything but the reset button, it ends in a stage that may follow [s]. *)
Definition keeps_to_table (rev : revision) : Prop :=
  forall (llm : option service) (ev : click) (sess : session) (s : Stage),
    stage (app_state sess) = stage_name s ->
    ev <> StartNewWorkflow ->
    exists s',
      stage (app_state (state_after (script_run rev llm ev sess))) = stage_name s'
      /\ follows s s' = true.

(** The decision values of the [Literal] annotation and of the data model. *)
Definition decision_domain : list string :=
  ["approved"; "feedback"; "failed"; "passed"].

(** A model that answers every prompt with the same text. *)
Definition always (text : string) : service := fun _ => Content text.

(** A model whose every call raises. *)
Definition failing (e : string) : service := fun _ => Failure e.

(** The four artifact fields. *)
Definition artifacts (s : SDLCState)
  : option string * option string * option string * option string :=
  (user_stories s, design_docs s, code s, test_cases s).

(** A record in the middle of a Python project: stories, design, code and
    tests are there, nothing is decided. *)
Definition sample_state (stage_now : string) : SDLCState :=
  mkState stage_now "a todo list" (Some "python") (Some "As a user, I want X")
    (Some "design") (Some "print(1)") (Some "assert True") None None [] None.

Definition sample_session (stage_now : string) : session :=
  mkSession (sample_state stage_now) false false.

(** A node function of either revision. *)
Definition node_function : Type :=
  revision -> option service -> SDLCState -> outcome SDLCState.

(** The node the script runs in each revision stage. *)
Definition revision_node (s : Stage) : option node_function :=
  match s with
  | ReviseStories => Some revise_user_stories
  | ReviseDesign => Some revise_design_docs
  | FixCode => Some fix_code_review
  | FixSecurity => Some fix_security_issues
  | FixTests => Some fix_test_cases
  | _ => None
  end.

(** The review stage a revision stage hands back to. *)
Definition review_of (s : Stage) : Stage :=
  match s with
  | ReviseStories => StoryReview
  | ReviseDesign => DesignReview
  | FixCode => CodeReview
  | FixSecurity => SecurityReview
  | FixTests => TestReview
  | other => other
  end.

(** The entries a skipped revision writes to the history: the final
    revision's [revise_design_docs], [fix_code_review] and [fix_test_cases]
    record the skip, the other nodes and the first revision do not. *)
Definition skip_entries (rev : revision) (s : Stage) : list (string * string) :=
  match rev, s with
  | Final, ReviseDesign =>
      [("revise_design_docs",
        "No feedback provided. Skipping design document revision.")]
  | Final, FixCode =>
      [("fix_code_review", "No feedback provided. Skipping code fixing.")]
  | Final, FixTests =>
      [("fix_test_cases", "No feedback provided. Skipping test case fixing.")]
  | _, _ => []
  end.

(** The revision nodes that read [language.lower()] before anything else. *)
Definition lowers_language (s : Stage) : bool :=
  match s with
  | FixCode | FixSecurity | FixTests => true
  | _ => false
  end.

(** The node the script runs in each generation stage. *)
Definition generation_node (s : Stage) : option node_function :=
  match s with
  | GenerateStories => Some generate_user_stories
  | DesignGen => Some create_design_docs
  | CodeGen => Some generate_code
  | WriteTests => Some write_test_cases
  | _ => None
  end.

(** The node behind the AI button of each review stage, and its prompt. *)
Definition review_node (s : Stage) : option node_function :=
  match s with
  | StoryReview => Some product_owner_review
  | DesignReview => Some design_review
  | CodeReview => Some code_review
  | SecurityReview => Some security_review
  | TestReview => Some review_test_cases
  | _ => None
  end.

Definition review_prompt (s : Stage) (state : SDLCState) : prompt :=
  match s with
  | StoryReview => product_owner_review_prompt state
  | DesignReview => design_review_prompt state
  | CodeReview => code_review_prompt state
  | SecurityReview => security_review_prompt state
  | _ => review_test_cases_prompt state
  end.

(** What a review node needs before it gets to call the model:
    [security_review] wants code and a language, [review_test_cases] a
    language. *)
Definition review_gets_to_model (s : Stage) (state : SDLCState) : bool :=
  match s with
  | SecurityReview =>
      truthy (code state)
      && match target_language state with Some _ => true | None => false end
  | TestReview =>
      match target_language state with Some _ => true | None => false end
  | _ => true
  end.

(** ** The display helper *)

(** What [display_output] puts on the page under its subheader:
    [st.code(content, language=..., line_numbers=True)] or
    [st.markdown(content)]. *)
Inductive rendering :=
| CodeBlock (content language : string)
| MarkdownText (content : string).

(** [display_output], identical in both revisions.  Its callers pass a
    string as [content]; a caller that gives no language passes the default
    "markdown". *)
Definition display_output (title content : string) (language : option string)
  : rendering :=
  let code_language :=
    match language with
    | Some (String _ _ as l) => lower l
    | _ => "plaintext"
    end in
  let is_likely_code :=
    if contains "code" (lower title) || contains "test" (lower title) then true
    else contains "```" content || contains "def " content
         || contains "import " content || contains "class " content
         || contains "function " content || contains "{" content in
  if is_likely_code then CodeBlock content code_language
  else MarkdownText content.

(** ** The dispatch as a table *)

(** The node the script calls at each stage, with the [show_llm_details]
    flag the QA branch hands over; [None] for the stages that call no node
    ("User Input", "Deployed" and any other string). *)
Definition stage_node (details : bool) (name : string) : option node_function :=
  if name =? "Generate User Stories" then Some generate_user_stories
  else if name =? "Product Owner Review" then Some product_owner_review
  else if name =? "Revise User Stories" then Some revise_user_stories
  else if name =? "Create Design Docs" then Some create_design_docs
  else if name =? "Design Review" then Some design_review
  else if name =? "Revise Design Docs" then Some revise_design_docs
  else if name =? "Generate Code" then Some generate_code
  else if name =? "Code Review" then Some code_review
  else if name =? "Fix Code Review" then Some fix_code_review
  else if name =? "Security Review" then Some security_review
  else if name =? "Fix Security" then Some fix_security_issues
  else if name =? "Write Test Cases" then Some write_test_cases
  else if name =? "Test Case Review" then Some review_test_cases
  else if name =? "Fix Test Cases" then Some fix_test_cases
  else if name =? "QA Testing" then
    Some (fun rev llm => qa_testing rev llm details)
  else if name =? "Deploy" then Some (fun rev llm => deploy rev llm false)
  else None.

(** The part of the record that only node functions and the start and reset
    buttons write: everything but stage, decision and feedback. *)
Definition payload (s : SDLCState)
  : string * option string * option string * option string * option string
    * option string * list (string * string) * option string :=
  (user_input s, target_language s, user_stories s, design_docs s, code s,
   test_cases s, history s, deployment_reasoning s).

(** The model raised [e]: it is initialised and some prompt makes it raise [e]. *)
Definition model_raised (llm : option service) (e : string) : Prop :=
  exists (invoke : service) (p : prompt), llm = Some invoke /\ invoke p = Failure e.

(** The stage names the dispatch has a branch for. *)
Definition dispatched_stages : list string :=
  ["User Input"; "Generate User Stories"; "Product Owner Review";
   "Revise User Stories"; "Create Design Docs"; "Design Review";
   "Revise Design Docs"; "Generate Code"; "Code Review"; "Fix Code Review";
   "Security Review"; "Fix Security"; "Write Test Cases"; "Test Case Review";
   "Fix Test Cases"; "QA Testing"; "Deploy"; "Deployed"].

Definition dispatched (name : string) : bool :=
  existsb (String.eqb name) dispatched_stages.

(** What every session the script gets into satisfies. *)
Definition session_invariant (sess : session) : Prop :=
  let st := app_state sess in
  (target_language st = None -> st = initial_state)
  /\ (forall l, target_language st = Some l -> lower l = l /\ strip l = l)
  /\ (stage st = "Deploy" -> decision st = Some "passed")
  /\ dispatched (stage st) = true.

(** What one call at the stage [name] may do to the record [st], read off
    the result [st']: requirements and language are written at "User Input"
    only, the history only grows, and each artifact is written only at the
    stages that produce it. *)
Definition footprint (name : string) (st st' : SDLCState) : Prop :=
  (name <> "User Input" ->
   user_input st' = user_input st /\ target_language st' = target_language st)
  /\ (exists l, history st' = (history st ++ l)%list)
  /\ (~ In name ["Generate User Stories"; "Revise User Stories"] ->
      user_stories st' = user_stories st)
  /\ (~ In name ["Create Design Docs"; "Revise Design Docs"] ->
      design_docs st' = design_docs st)
  /\ (~ In name ["Generate Code"; "Fix Code Review"; "Fix Security"] ->
      code st' = code st)
  /\ (~ In name ["Write Test Cases"; "Fix Test Cases"] ->
      test_cases st' = test_cases st).

(** A sequence of runs, each with the model of the moment and the click
    that triggers it. *)
Fixpoint play (rev : revision) (steps : list (option service * click))
    (sess : session) : session :=
  match steps with
  | [] => sess
  | (llm, ev) :: rest => play rev rest (state_after (script_run rev llm ev sess))
  end.

(** A whole project in the final revision, approved by hand at every review
    and tested and deployed without a model. *)
Definition whole_project : list (option service * click) :=
  [(None, StartSDLC "a todo list" "Python");
   (Some (always "As a user, I want X"), NoClick);
   (None, ApproveManually);
   (Some (always "the design"), NoClick);
   (None, ApproveManually);
   (Some (always "def f(): return 1"), NoClick);
   (None, ApproveManually);
   (None, ApproveManually);
   (Some (always "assert f() == 1"), NoClick);
   (None, ApproveManually);
   (None, NoClick);
   (None, NoClick)].

(** * Properties *)

(** ** Facts about the string operations *)

Section StringFacts.

Lemma append_assoc (a b c : string) : (a ++ b) ++ c = a ++ (b ++ c).
Proof. induction a as [|x a IH]; simpl; [reflexivity | now rewrite IH]. Qed.

Lemma append_empty_r (a : string) : a ++ "" = a.
Proof. induction a as [|x a IH]; simpl; [reflexivity | now rewrite IH]. Qed.

Lemma length_append (a b : string) : length (a ++ b) = length a + length b.
Proof. induction a as [|x a IH]; simpl; [reflexivity | now rewrite IH]. Qed.

Lemma prefix_refl (p : string) : prefix p p = true.
Proof.
  induction p as [|x p IH]; simpl; [reflexivity|].
  destruct (ascii_dec x x) as [_|Hne]; [exact IH | now elim Hne].
Qed.

Lemma prefix_append (p s : string) : prefix p (p ++ s) = true.
Proof.
  induction p as [|x p IH]; simpl.
  - now destruct s.
  - destruct (ascii_dec x x) as [_|Hne]; [exact IH | now elim Hne].
Qed.

Lemma skip_append (p s : string) : skip (length p) (p ++ s) = s.
Proof. induction p as [|x p IH]; simpl; [reflexivity | exact IH]. Qed.

Lemma take_append (p s : string) : take (length p) (p ++ s) = p.
Proof. induction p as [|x p IH]; simpl; [now destruct s | now rewrite IH]. Qed.

Lemma endswith_append (a p : string) : endswith p (a ++ p) = true.
Proof.
  unfold endswith. rewrite length_append.
  replace (length a + length p - length p) with (length a) by lia.
  rewrite skip_append, String.eqb_refl, andb_true_r.
  apply Nat.leb_le. lia.
Qed.

Lemma contains_append (p x : string) : contains x (p ++ x) = true.
Proof.
  induction p as [|c p IH]; simpl.
  - destruct x; simpl; [reflexivity|]. rewrite prefix_refl.
    destruct (ascii_dec a a) as [_|Hne]; [reflexivity | now elim Hne].
  - rewrite IH. apply orb_true_r.
Qed.

Lemma contains_inside (p x q : string) : contains x (p ++ x ++ q) = true.
Proof.
  induction p as [|c p IH]; simpl.
  - assert (H : forall h, prefix x h = true -> contains x h = true).
    { intros h Hh. destruct h; cbn [contains]; now rewrite Hh. }
    apply H, prefix_append.
  - rewrite IH. apply orb_true_r.
Qed.

Lemma lstrip_blank_all (w : string) : blank w = true -> lstrip w = "".
Proof.
  induction w as [|c w IH]; simpl; [reflexivity|].
  intros H. apply andb_prop in H as [Hc Hw]. rewrite Hc. now apply IH.
Qed.

Lemma lstrip_blank (w s : string) : blank w = true -> lstrip (w ++ s) = lstrip s.
Proof.
  induction w as [|c w IH]; simpl; [reflexivity|].
  intros H. apply andb_prop in H as [Hc Hw]. rewrite Hc. now apply IH.
Qed.

Lemma rstrip_solid (c : ascii) (s : string) :
  isspace c = false -> rstrip (String c s) = String c (rstrip s).
Proof. intros Hc. simpl. destruct (rstrip s); [now rewrite Hc | reflexivity]. Qed.

Lemma rstrip_blank_all (w : string) : blank w = true -> rstrip w = "".
Proof.
  induction w as [|c w IH]; simpl; [reflexivity|].
  intros H. apply andb_prop in H as [Hc Hw]. now rewrite (IH Hw), Hc.
Qed.

Lemma rstrip_append_blank (s w : string) :
  blank w = true -> rstrip (s ++ w) = rstrip s.
Proof.
  intros Hw. induction s as [|c s IH]; simpl.
  - now apply rstrip_blank_all.
  - now rewrite IH.
Qed.

Lemma rstrip_append_solid (a b : string) :
  rstrip b <> "" -> rstrip (a ++ b) = a ++ rstrip b.
Proof.
  intros Hb. induction a as [|c a IH]; simpl; [reflexivity|].
  rewrite IH. destruct (a ++ rstrip b) eqn:E; [|reflexivity].
  destruct a; simpl in E; [now elim Hb | discriminate].
Qed.

(** A string is its [rstrip] followed by white space. *)
Lemma rstrip_split (s : string) :
  exists w, blank w = true /\ s = rstrip s ++ w.
Proof.
  induction s as [|c s [w [Hw Hs]]].
  - exists "". now split.
  - simpl. destruct (rstrip s) as [|a r] eqn:E.
    + simpl in Hs. subst w. destruct (isspace c) eqn:Hc.
      * exists (String c s). simpl. now rewrite Hc, Hw.
      * exists s. now split.
    + exists w. split; [exact Hw|]. simpl. simpl in Hs. now rewrite <- Hs.
Qed.

Lemma strip_append_blank (s w : string) :
  blank w = true -> strip (s ++ w) = strip s.
Proof.
  intros Hw. unfold strip. induction s as [|c s IH]; simpl.
  - now rewrite (lstrip_blank_all w Hw).
  - destruct (isspace c); [exact IH|].
    change (String c (s ++ w)) with (String c s ++ w).
    now apply rstrip_append_blank.
Qed.

Lemma strip_blank_append (w s : string) :
  blank w = true -> strip (w ++ s) = strip s.
Proof. intros Hw. unfold strip. now rewrite lstrip_blank. Qed.

(** Text between two fences is not touched by [strip]. *)
Lemma strip_fenced (a : string) : strip (fence ++ a ++ fence) = fence ++ a ++ fence.
Proof.
  unfold strip. change (lstrip (fence ++ a ++ fence)) with (fence ++ a ++ fence).
  rewrite <- append_assoc. rewrite rstrip_append_solid; [reflexivity|].
  discriminate.
Qed.

Lemma strip_fence_tag (t : string) : strip (fence ++ t) = fence ++ rstrip t.
Proof.
  unfold strip. change (lstrip (fence ++ t)) with (fence ++ t).
  unfold fence. simpl append. now rewrite !rstrip_solid.
Qed.

End StringFacts.

(** ** Removing the code fence *)

Example clean_python_block :
  clean_llm_code_output ("```python" ++ nl ++ "print(1)" ++ nl ++ "```")
    (Some "Python") = "print(1)".
Proof. reflexivity. Qed.

Example clean_bare_block :
  clean_llm_code_output ("```" ++ nl ++ "  x = 1 " ++ nl ++ "```") None = "x = 1".
Proof. reflexivity. Qed.

Example clean_unfenced :
  clean_llm_code_output "  plain text " (Some "go") = "plain text".
Proof. reflexivity. Qed.

(** After the opening tag is gone, the closing fence and the surrounding
    white space go too. *)
Lemma clean_tail (w s : string) :
  blank w = true ->
  let rest := w ++ nl ++ s ++ nl ++ fence in
  strip (if endswith fence rest then take (length rest - 3) rest else rest)
  = strip s.
Proof.
  intros Hw rest.
  assert (E : rest = (w ++ nl ++ s ++ nl) ++ fence).
  { unfold rest. now rewrite !append_assoc. }
  rewrite E, endswith_append, length_append.
  replace (length (w ++ nl ++ s ++ nl) + length fence - 3)
    with (length (w ++ nl ++ s ++ nl)) by (simpl length; lia).
  rewrite take_append.
  rewrite strip_blank_append by exact Hw.
  rewrite strip_blank_append by reflexivity.
  now apply strip_append_blank.
Qed.

(** A block opened by the fence and the lower-cased language name. *)
Lemma clean_tagged_block (L s : string) :
  nonempty L = true ->
  clean_llm_code_output (fence ++ lower L ++ nl ++ s ++ nl ++ fence) (Some L)
  = strip s.
Proof.
  intros HL. destruct L as [|c L]; [discriminate|].
  unfold clean_llm_code_output. cbv zeta.
  remember (lower (String c L)) as low eqn:Elow.
  replace (fence ++ low ++ nl ++ s ++ nl ++ fence)
    with (fence ++ (low ++ nl ++ s ++ nl) ++ fence)
    by (now rewrite !append_assoc).
  rewrite strip_fenced, strip_fence_tag.
  destruct (rstrip_split low) as [w [Hw Hlow]].
  replace (fence ++ (low ++ nl ++ s ++ nl) ++ fence)
    with ((fence ++ rstrip low) ++ (w ++ nl ++ s ++ nl ++ fence)).
  2:{ rewrite Hlow at 2. now rewrite !append_assoc. }
  unfold startswith. rewrite prefix_append. cbn [truthy andb].
  rewrite skip_append. now apply clean_tail.
Qed.

(** A block opened by the bare fence, cleaned without a language. *)
Lemma clean_bare_fenced_block (language : option string) (s : string) :
  truthy language = false ->
  clean_llm_code_output (fence ++ nl ++ s ++ nl ++ fence) language = strip s.
Proof.
  intros Hl. unfold clean_llm_code_output. cbv zeta. rewrite Hl.
  replace (fence ++ nl ++ s ++ nl ++ fence)
    with (fence ++ (nl ++ s ++ nl) ++ fence)
    by (now rewrite !append_assoc).
  rewrite strip_fenced. cbn [andb].
  replace (startswith fence (fence ++ (nl ++ s ++ nl) ++ fence)) with true
    by (symmetry; apply prefix_append).
  change (skip 3 (fence ++ (nl ++ s ++ nl) ++ fence))
    with ((nl ++ s ++ nl) ++ fence).
  replace ((nl ++ s ++ nl) ++ fence) with ("" ++ nl ++ s ++ nl ++ fence)
    by (now rewrite !append_assoc).
  now apply clean_tail.
Qed.

(** C10. [clean_llm_code_output] undoes Markdown code fencing: for text [s]
    without a triple backtick, the block made of the fence followed by the
    lower-cased non-empty language name, a line feed, [s], a line feed and
    the closing fence is cleaned, with that language, to [s] stripped; a
    block opened by the bare fence is cleaned to [s] stripped when no
    language is given. *)
Theorem clean_llm_code_output_undoes_fencing :
  forall s : string,
    contains fence s = false ->
    (forall L : string,
        nonempty L = true ->
        clean_llm_code_output (fence ++ lower L ++ nl ++ s ++ nl ++ fence)
          (Some L) = strip s)
    /\ clean_llm_code_output (fence ++ nl ++ s ++ nl ++ fence) None = strip s.
Proof.
  intros s _. split.
  - intros L HL. now apply clean_tagged_block.
  - now apply clean_bare_fenced_block.
Qed.

Lemma clean_llm_code_output_undoes_fencing_witness :
  contains fence ("  return 1" ++ nl) = false
  /\ clean_llm_code_output
       (fence ++ lower "Go " ++ nl ++ ("  return 1" ++ nl) ++ nl ++ fence)
       (Some "Go ") = "return 1"
  /\ clean_llm_code_output
       (fence ++ nl ++ ("  return 1" ++ nl) ++ nl ++ fence) None = "return 1".
Proof.
  split; [reflexivity|].
  destruct (clean_llm_code_output_undoes_fencing ("  return 1" ++ nl) eq_refl)
    as [Htag Hbare].
  split.
  - exact (Htag "Go " eq_refl).
  - exact Hbare.
Defined.

(** ** The first revision never writes the history *)

Ltac split_cases :=
  repeat match goal with
         | |- context [match ?x with _ => _ end] =>
             lazymatch x with
             | context [match _ with _ => _ end] => fail
             | _ => destruct x eqn:?
             end
         end.

Ltac node_history :=
  intros;
  unfold bind, review_verdict, qa_verdict, history_append;
  split_cases; reflexivity.

Section FirstHistory.

Variable llm : option service.
Variable st : SDLCState.

Lemma generate_user_stories_history :
  history (state_after (generate_user_stories First llm st)) = history st.
Proof. unfold generate_user_stories. node_history. Qed.

Lemma product_owner_review_history :
  history (state_after (product_owner_review First llm st)) = history st.
Proof. unfold product_owner_review. node_history. Qed.

Lemma revise_user_stories_history :
  history (state_after (revise_user_stories First llm st)) = history st.
Proof. unfold revise_user_stories. node_history. Qed.

Lemma create_design_docs_history :
  history (state_after (create_design_docs First llm st)) = history st.
Proof. unfold create_design_docs. node_history. Qed.

Lemma design_review_history :
  history (state_after (design_review First llm st)) = history st.
Proof. unfold design_review. node_history. Qed.

Lemma revise_design_docs_history :
  history (state_after (revise_design_docs First llm st)) = history st.
Proof. unfold revise_design_docs. node_history. Qed.

Lemma generate_code_history :
  history (state_after (generate_code First llm st)) = history st.
Proof. unfold generate_code. node_history. Qed.

Lemma code_review_history :
  history (state_after (code_review First llm st)) = history st.
Proof. unfold code_review. node_history. Qed.

Lemma fix_code_review_history :
  history (state_after (fix_code_review First llm st)) = history st.
Proof. unfold fix_code_review. node_history. Qed.

Lemma security_review_history :
  history (state_after (security_review First llm st)) = history st.
Proof. unfold security_review. node_history. Qed.

Lemma fix_security_issues_history :
  history (state_after (fix_security_issues First llm st)) = history st.
Proof. unfold fix_security_issues. node_history. Qed.

Lemma write_test_cases_history :
  history (state_after (write_test_cases First llm st)) = history st.
Proof. unfold write_test_cases. node_history. Qed.

Lemma review_test_cases_history :
  history (state_after (review_test_cases First llm st)) = history st.
Proof. unfold review_test_cases. node_history. Qed.

Lemma fix_test_cases_history :
  history (state_after (fix_test_cases First llm st)) = history st.
Proof. unfold fix_test_cases. node_history. Qed.

Lemma qa_testing_history (details : bool) :
  history (state_after (qa_testing First llm details st)) = history st.
Proof. unfold qa_testing. node_history. Qed.

Lemma deploy_history (details : bool) :
  history (state_after (deploy First llm details st)) = history st.
Proof. unfold deploy. node_history. Qed.

End FirstHistory.

Lemma run_node_app_state (f : SDLCState -> outcome SDLCState) (sess : session) :
  app_state (state_after (run_node f sess)) = state_after (f (app_state sess)).
Proof. unfold run_node, bind. now destruct (f (app_state sess)). Qed.

Lemma with_lang_cases (sess : session) (k : outcome session) :
  with_lang sess k = k \/ with_lang sess k = Raised no_capitalize sess.
Proof. unfold with_lang. destruct (target_language (app_state sess)); auto. Qed.

Lemma review_stage_history (reviewer : SDLCState -> outcome SDLCState)
    (approved_stage feedback_stage : string) (ev : click) (sess : session) :
  (forall st, history (state_after (reviewer st)) = history st) ->
  history (app_state (state_after
             (review_stage reviewer approved_stage feedback_stage ev sess)))
  = history (app_state sess).
Proof.
  intros Hrev. unfold review_stage, bind.
  destruct ev; try reflexivity.
  - specialize (Hrev (app_state sess)).
    destruct (reviewer (app_state sess)); simpl in *; [|exact Hrev].
    split_cases; exact Hrev.
  - split_cases; reflexivity.
Qed.

(** Every branch of the first revision's dispatch leaves the history as it
    is, except the reset button, which installs the empty initial record. *)
Lemma main_interaction_history_first (llm : option service) (ev : click)
    (sess : session) :
  let after := app_state (state_after (main_interaction First llm ev sess)) in
  history after = history (app_state sess) \/ history after = [].
Proof.
  cbv zeta. unfold main_interaction. cbv zeta.
  repeat match goal with
         | |- context [if (?a =? ?b) then _ else _] => destruct (a =? b)
         end;
    try match goal with
        | |- context [with_lang ?s ?k] =>
            destruct (with_lang_cases s k) as [-> | ->]; [|now left]
        end;
    try rewrite run_node_app_state;
    try (left; first
           [ apply generate_user_stories_history
           | apply revise_user_stories_history
           | apply create_design_docs_history
           | apply revise_design_docs_history
           | apply generate_code_history
           | apply fix_code_review_history
           | apply fix_security_issues_history
           | apply write_test_cases_history
           | apply fix_test_cases_history
           | apply review_stage_history; intros;
             first [ apply product_owner_review_history
                   | apply design_review_history
                   | apply code_review_history
                   | apply security_review_history
                   | apply review_test_cases_history ]
           | reflexivity ]).
  - destruct ev; split_cases; now left.
  - left. unfold bind.
    pose proof (qa_testing_history llm (app_state sess) false) as H.
    destruct (qa_testing First llm false (app_state sess)); simpl in *;
      [|exact H].
    split_cases; exact H.
  - destruct ev; auto.
Qed.

Lemma script_run_history_first (llm : option service) (ev : click)
    (sess : session) :
  let after := app_state (state_after (script_run First llm ev sess)) in
  history after = history (app_state sess) \/ history after = [].
Proof.
  cbv zeta. unfold script_run, bind, display_area.
  destruct (_ && _).
  - now left.
  - apply main_interaction_history_first.
Qed.

(** C9. In the first revision no node function and no branch of the script
    appends to [history]: every session the script can reach holds the empty
    history. *)
Theorem first_revision_history_stays_empty :
  forall sess : session,
    reachable First sess -> history (app_state sess) = [].
Proof.
  intros sess Hreach. induction Hreach as [|llm ev sess _ IH].
  - reflexivity.
  - destruct (script_run_history_first llm ev sess) as [H | H].
    + now rewrite H.
    + exact H.
Qed.

Lemma first_revision_history_stays_empty_witness :
  let started :=
    state_after (script_run First (Some (always "As a user, I want X"))
                   (StartSDLC "a todo list" "Python") initial_session) in
  let sess :=
    state_after (script_run First (Some (always "As a user, I want X")) NoClick
                   started) in
  reachable First sess
  /\ stage (app_state sess) = "Product Owner Review"
  /\ history (app_state sess) = [].
Proof.
  cbv zeta.
  assert (R : reachable First
                (state_after
                   (script_run First (Some (always "As a user, I want X")) NoClick
                      (state_after
                         (script_run First (Some (always "As a user, I want X"))
                            (StartSDLC "a todo list" "Python")
                            initial_session))))).
  { apply reach_run. apply reach_run. apply reach_start. }
  split; [exact R|]. split; [reflexivity|].
  exact (first_revision_history_stays_empty _ R).
Defined.

(** ** The dispatch, branch by branch *)

Ltac unfold_nodes :=
  unfold run_node, with_lang, review_stage,
    generate_user_stories, product_owner_review, revise_user_stories,
    create_design_docs, design_review, revise_design_docs, generate_code,
    code_review, fix_code_review, security_review, fix_security_issues,
    write_test_cases, review_test_cases, fix_test_cases, qa_testing, deploy,
    bind, review_verdict, qa_verdict, history_append, log.

(** The stage reached is named by some stage of the table that may follow. *)
Ltac name_stage allowed :=
  first
    [ exists InitialInput; split; [reflexivity | allowed]
    | exists GenerateStories; split; [reflexivity | allowed]
    | exists StoryReview; split; [reflexivity | allowed]
    | exists ReviseStories; split; [reflexivity | allowed]
    | exists DesignGen; split; [reflexivity | allowed]
    | exists DesignReview; split; [reflexivity | allowed]
    | exists ReviseDesign; split; [reflexivity | allowed]
    | exists CodeGen; split; [reflexivity | allowed]
    | exists CodeReview; split; [reflexivity | allowed]
    | exists FixCode; split; [reflexivity | allowed]
    | exists SecurityReview; split; [reflexivity | allowed]
    | exists FixSecurity; split; [reflexivity | allowed]
    | exists WriteTests; split; [reflexivity | allowed]
    | exists TestReview; split; [reflexivity | allowed]
    | exists FixTests; split; [reflexivity | allowed]
    | exists QA; split; [reflexivity | allowed]
    | exists Deploy; split; [reflexivity | allowed]
    | exists Deployed; split; [reflexivity | allowed]
    | exists DeploymentFailed; split; [reflexivity | allowed] ].

(** C1 (amended). One run of the script, started in stage [s] by anything
    but the reset button, ends in a stage of the table that is [s] itself or
    one of the declared successors of [s]; the one exception is the first
    revision's QA stage, which sends a run that did not pass to CodeReview. *)
Theorem script_run_keeps_to_table :
  forall (rev : revision) (llm : option service) (ev : click)
         (sess : session) (s : Stage),
    stage (app_state sess) = stage_name s ->
    ev <> StartNewWorkflow ->
    exists s',
      stage (app_state (state_after (script_run rev llm ev sess))) = stage_name s'
      /\ (follows s s' = true \/ (rev = First /\ s = QA /\ s' = CodeReview)).
Proof.
  intros rev llm ev sess s.
  intros Hs Hev.
  unfold script_run, display_area, main_interaction. cbv zeta.
  unfold bind at 1.
  destruct (_ && _).
  { exists s. split; [exact Hs|]. left. now destruct s. }
  cbn [state_after]. rewrite Hs.
  destruct s; cbv [stage_name] in *;
    match goal with
    | |- context [if (?a =? ?b) then _ else _] => idtac
    end.
  all: cbn [String.eqb Ascii.eqb Bool.eqb].
  all: destruct rev, ev; try (now elim Hev); unfold_nodes; split_cases.
  all: cbn [state_after app_state with_app_state with_show_feedback_box stage
            with_stage with_feedback with_decision with_history with_code
            with_test_cases with_user_stories with_design_docs
            with_deployment_reasoning with_target_language with_user_input];
    try rewrite Hs.
  all: name_stage ltac:(first [ left; reflexivity
                              | right; repeat split; reflexivity ]).
Qed.

Lemma script_run_keeps_to_table_witness :
  stage (app_state (sample_session "Code Review")) = stage_name CodeReview
  /\ AskAI <> StartNewWorkflow
  /\ exists s',
       stage (app_state
                (state_after
                   (script_run Final (Some (always "approved: reads well")) AskAI
                      (sample_session "Code Review")))) = stage_name s'
       /\ (follows CodeReview s' = true
           \/ (Final = First /\ CodeReview = QA /\ s' = CodeReview)).
Proof.
  split; [reflexivity|]. split; [discriminate|].
  apply script_run_keeps_to_table; [reflexivity | discriminate].
Defined.

(** C1 as stated fails in the first revision: a QA run whose answer is
    FAIL moves the record to "Code Review", which the table does not list
    among the successors of QA. *)
Lemma first_revision_leaves_table : ~ keeps_to_table First.
Proof.
  intros H.
  destruct (H (Some (always "FAIL: the tests do not compile")) NoClick
              (sample_session "QA Testing") QA eq_refl)
    as [s' [Hs' Hf]]; [discriminate|].
  destruct s'; vm_compute in Hs', Hf; discriminate.
Qed.

Example first_revision_qa_fail_run :
  stage (app_state
           (state_after
              (script_run First (Some (always "FAIL: the tests do not compile"))
                 NoClick (sample_session "QA Testing")))) = "Code Review".
Proof. reflexivity. Qed.

Example final_revision_qa_fail_run :
  stage (app_state
           (state_after
              (script_run Final (Some (always "FAIL: the tests do not compile"))
                 NoClick (sample_session "QA Testing")))) = "Generate Code".
Proof. reflexivity. Qed.

(** ** The QA stage *)

Lemma decision_is_true (d : string) (st : SDLCState) :
  decision_is d st = true <-> decision st = Some d.
Proof.
  unfold decision_is. destruct (decision st) as [x|].
  - rewrite String.eqb_eq. split; [now intros -> | now intros [= ->]].
  - split; discriminate.
Qed.

Lemma decision_is_false (d : string) (st : SDLCState) :
  decision_is d st = false <-> decision st <> Some d.
Proof.
  rewrite <- decision_is_true. destruct (decision_is d st); split; intros H.
  - discriminate.
  - now elim H.
  - discriminate.
  - reflexivity.
Qed.

(** The QA branch of the dispatch, for each revision. *)
Lemma qa_branch_final (llm : option service) (ev : click) (sess : session) :
  stage (app_state sess) = "QA Testing" ->
  main_interaction Final llm ev sess
  = bind (qa_testing Final llm (show_llm_details sess) (app_state sess))
         (fun s => with_app_state s sess)
         (fun s =>
            Returned (with_app_state
                        (if decision_is "passed" s
                         then with_stage "Deploy" s
                         else with_stage "Generate Code" s)
                        sess)).
Proof. intros H. unfold main_interaction. rewrite H. reflexivity. Qed.

Lemma qa_branch_first (llm : option service) (ev : click) (sess : session) :
  stage (app_state sess) = "QA Testing" ->
  main_interaction First llm ev sess
  = with_lang sess
      (bind (qa_testing First llm false (app_state sess))
            (fun s => with_app_state s sess)
            (fun s =>
               Returned (with_app_state
                           (if decision_is "passed" s
                            then with_stage "Deploy" s
                            else with_stage "Code Review" s)
                           sess))).
Proof. intros H. unfold main_interaction. rewrite H. reflexivity. Qed.

(** The final revision's [qa_testing] catches what the model raises. *)
Lemma qa_testing_final_returns (llm : option service) (details : bool)
    (st : SDLCState) :
  raised (qa_testing Final llm details st) = false.
Proof. unfold qa_testing. unfold_nodes. split_cases; reflexivity. Qed.

(** Whatever [qa_testing] returns, the decision it leaves is the one the
    dispatch reads, and the dispatch does not change it. *)
Lemma qa_dispatch_route (target : string) (sess : session) (st : SDLCState) :
  let after :=
    with_app_state
      (if decision_is "passed" st then with_stage "Deploy" st
       else with_stage target st) sess in
  decision (app_state after) = decision st
  /\ (decision st <> Some "passed" -> stage (app_state after) = target)
  /\ (decision st = Some "passed" -> stage (app_state after) = "Deploy").
Proof.
  cbv zeta. destruct (decision_is "passed" st) eqn:E.
  - apply decision_is_true in E. split; [reflexivity|].
    split; [intros H; now elim H | reflexivity].
  - apply decision_is_false in E. split; [reflexivity|].
    split; [reflexivity | intros H; now elim E].
Qed.

(** C2 (amended). When the QA stage yields the decision "failed" -- a FAIL
    answer, an answer of neither shape, or missing code or tests -- the final
    revision moves the record to "Generate Code" (CodeGen), and its QA branch
    never raises; the first revision moves it to "Code Review" instead. *)
Theorem qa_failure_route :
  forall (rev : revision) (llm : option service) (ev : click) (sess : session),
    stage (app_state sess) = stage_name QA ->
    let run := main_interaction rev llm ev sess in
    (rev = Final -> raised run = false)
    /\ (raised run = false ->
        decision (app_state (state_after run)) = Some "failed" ->
        stage (app_state (state_after run))
        = match rev with
          | Final => stage_name CodeGen
          | First => stage_name CodeReview
          end).
Proof.
  intros rev llm ev sess Hs. cbv zeta. destruct rev.
  - split; [discriminate|].
    rewrite (qa_branch_first llm ev sess Hs). unfold with_lang, bind.
    destruct (target_language (app_state sess)); [|discriminate].
    destruct (qa_testing First llm false (app_state sess)) as [st|e st];
      [|discriminate].
    intros _ Hd. cbn [state_after] in *.
    destruct (qa_dispatch_route "Code Review" sess st) as [Hdec [Hroute _]].
    rewrite Hdec in Hd. apply Hroute. rewrite Hd. discriminate.
  - rewrite (qa_branch_final llm ev sess Hs). unfold bind.
    pose proof (qa_testing_final_returns llm (show_llm_details sess)
                  (app_state sess)) as Hret.
    destruct (qa_testing Final llm (show_llm_details sess) (app_state sess))
      as [st|e st]; [|discriminate].
    split; [reflexivity|].
    intros _ Hd. cbn [state_after] in *.
    destruct (qa_dispatch_route "Generate Code" sess st) as [Hdec [Hroute _]].
    rewrite Hdec in Hd. apply Hroute. rewrite Hd. discriminate.
Qed.

Lemma qa_failure_route_witness :
  let sess := sample_session "QA Testing" in
  let run := main_interaction Final (Some (always "FAIL: no edge cases")) NoClick
               sess in
  stage (app_state sess) = stage_name QA
  /\ raised run = false
  /\ decision (app_state (state_after run)) = Some "failed"
  /\ stage (app_state (state_after run)) = stage_name CodeGen.
Proof.
  cbv zeta. split; [reflexivity|]. split; [reflexivity|]. split; [reflexivity|].
  exact (proj2 (qa_failure_route Final (Some (always "FAIL: no edge cases"))
                  NoClick (sample_session "QA Testing") eq_refl)
               eq_refl eq_refl).
Defined.

(** C2 as stated fails in the first revision: the QA stage yields "failed"
    and the next stage is the review stage "Code Review". *)
Lemma first_revision_qa_failure_goes_to_review :
  let run := main_interaction First (Some (always "FAIL: no edge cases")) NoClick
               (sample_session "QA Testing") in
  raised run = false
  /\ decision (app_state (state_after run)) = Some "failed"
  /\ stage (app_state (state_after run)) = stage_name CodeReview
  /\ stage (app_state (state_after run)) <> stage_name CodeGen.
Proof. cbv zeta. repeat split. discriminate. Qed.

(** The three ways of failing QA in the final revision. *)
Example qa_fail_answer :
  let st := state_after (qa_testing Final (Some (always "FAIL: no edge cases"))
                           false (sample_state "QA Testing")) in
  decision st = Some "failed" /\ feedback st = Some "no edge cases".
Proof. split; reflexivity. Qed.

Example qa_unrecognised_answer :
  let st := state_after (qa_testing Final (Some (always "looks fine to me"))
                           false (sample_state "QA Testing")) in
  decision st = Some "failed"
  /\ feedback st
     = Some "AI QA analysis returned an unexpected response: 'looks fine to me'. Manual review recommended.".
Proof. split; reflexivity. Qed.

Example qa_missing_tests :
  let st := state_after (qa_testing Final (Some (always "PASS: fine")) false
                           (with_test_cases None (sample_state "QA Testing"))) in
  decision st = Some "failed" /\ feedback st = Some "Code or test cases not found.".
Proof. split; reflexivity. Qed.

(** C8. In the final revision, when the model call inside [qa_testing]
    raises, the node stores the decision "error", a value outside the
    declared domain approved / feedback / failed / passed, and the QA branch
    of the dispatch routes the record to "Generate Code", as it does for a
    failed run. *)
Theorem qa_error_decision :
  forall (invoke : service) (e : string) (ev : click) (sess : session),
    stage (app_state sess) = stage_name QA ->
    truthy (code (app_state sess)) = true ->
    truthy (test_cases (app_state sess)) = true ->
    invoke (qa_testing_prompt (app_state sess)) = Failure e ->
    let st := state_after (qa_testing Final (Some invoke) (show_llm_details sess)
                             (app_state sess)) in
    let run := main_interaction Final (Some invoke) ev sess in
    decision st = Some "error"
    /\ ~ In "error" decision_domain
    /\ raised run = false
    /\ decision (app_state (state_after run)) = Some "error"
    /\ stage (app_state (state_after run)) = stage_name CodeGen.
Proof.
  intros invoke e ev sess Hs Hcode Htests Hfail. cbv zeta.
  rewrite (qa_branch_final (Some invoke) ev sess Hs).
  assert (Hqa : exists st,
             qa_testing Final (Some invoke) (show_llm_details sess)
               (app_state sess) = Returned st
             /\ decision st = Some "error").
  { unfold qa_testing. rewrite Hcode, Htests. cbn [negb orb].
    destruct (show_llm_details sess).
    - change (qa_testing_prompt
                (log ("qa_testing_prompt", render (qa_testing_prompt (app_state sess)))
                   (app_state sess)))
        with (qa_testing_prompt (app_state sess)).
      rewrite Hfail. eexists. split; reflexivity.
    - rewrite Hfail. eexists. split; reflexivity. }
  destruct Hqa as [st [Hqa Hdec]]. rewrite Hqa. unfold bind.
  cbn [state_after raised].
  destruct (qa_dispatch_route "Generate Code" sess st) as [Hsame [Hroute _]].
  repeat split.
  - exact Hdec.
  - simpl. intros [H|[H|[H|[H|[]]]]]; discriminate.
  - now rewrite Hsame.
  - apply Hroute. rewrite Hdec. discriminate.
Qed.

Lemma qa_error_decision_witness :
  let sess := sample_session "QA Testing" in
  let run := main_interaction Final (Some (failing "connection reset")) NoClick
               sess in
  stage (app_state sess) = stage_name QA
  /\ truthy (code (app_state sess)) = true
  /\ truthy (test_cases (app_state sess)) = true
  /\ failing "connection reset" (qa_testing_prompt (app_state sess))
     = Failure "connection reset"
  /\ decision (app_state (state_after run)) = Some "error"
  /\ stage (app_state (state_after run)) = "Generate Code".
Proof.
  cbv zeta. do 4 (split; [reflexivity|]).
  destruct (qa_error_decision (failing "connection reset") "connection reset"
              NoClick (sample_session "QA Testing")
              eq_refl eq_refl eq_refl eq_refl)
    as [_ [_ [_ [Hd Hs]]]].
  split; [exact Hd | exact Hs].
Defined.

(** ** The deploy stage *)

(** C3 (amended). In the final revision, [deploy] called on a record whose
    decision is not "passed" and whose feedback holds text returns with the
    stage "Deployment Failed" and with the feedback "Deployment halted due to
    failed QA testing. Reason: " followed by that text, so the reason is not
    empty and quotes the QA feedback; and whenever the final [deploy] leaves
    the stage "Deployed" the decision was "passed".  (The first revision's
    [deploy] has no such check.) *)
Theorem deploy_guarded_by_qa_outcome :
  forall (llm : option service) (details : bool) (st : SDLCState) (reason : string),
    decision st <> Some "passed" ->
    feedback st = Some reason ->
    let halted := "Deployment halted due to failed QA testing. Reason: " ++ reason in
    deploy Final llm details st
    = Returned (with_feedback (Some halted) (with_stage "Deployment Failed" st))
    /\ stage (state_after (deploy Final llm details st))
       = stage_name DeploymentFailed
    /\ nonempty halted = true
    /\ contains reason halted = true
    /\ (forall (llm' : option service) (st' : SDLCState),
          stage (state_after (deploy Final llm' details st')) = stage_name Deployed ->
          decision st' = Some "passed").
Proof.
  intros llm details st reason Hd Hf. cbv zeta.
  apply decision_is_false in Hd.
  assert (E : deploy Final llm details st
              = Returned
                  (with_feedback
                     (Some ("Deployment halted due to failed QA testing. Reason: "
                            ++ reason))
                     (with_stage "Deployment Failed" st))).
  { unfold deploy. now rewrite Hd, Hf. }
  split; [exact E|]. split; [now rewrite E|]. split; [reflexivity|].
  split; [apply contains_append|].
  intros llm' st' Hstage. apply decision_is_true.
  unfold deploy in Hstage.
  destruct (decision_is "passed" st'); [reflexivity|].
  cbn [negb] in Hstage. destruct (feedback st'); discriminate Hstage.
Qed.

Lemma deploy_guarded_by_qa_outcome_witness :
  let st := with_feedback (Some "no edge cases")
              (with_decision (Some "failed") (sample_state "Deploy")) in
  decision st <> Some "passed"
  /\ feedback st = Some "no edge cases"
  /\ deploy Final None false st
     = Returned
         (with_feedback
            (Some "Deployment halted due to failed QA testing. Reason: no edge cases")
            (with_stage "Deployment Failed" st)).
Proof.
  cbv zeta. split; [discriminate|]. split; [reflexivity|].
  exact (proj1 (deploy_guarded_by_qa_outcome None false
                  (with_feedback (Some "no edge cases")
                     (with_decision (Some "failed") (sample_state "Deploy")))
                  "no edge cases"
                  ltac:(discriminate) eq_refl)).
Defined.

(** C3 as stated fails in the first revision, whose [deploy] does not look
    at the decision: a record that failed QA comes out "Deployed" and no
    failure reason is written. *)
Lemma first_revision_deploys_failed_record :
  let st := with_feedback (Some "no edge cases")
              (with_decision (Some "failed") (sample_state "Deploy")) in
  let after := state_after (deploy First (Some (always "ok")) false st) in
  decision st <> Some "passed"
  /\ stage after = stage_name Deployed
  /\ stage after <> stage_name DeploymentFailed
  /\ feedback after = Some "no edge cases".
Proof. cbv zeta. repeat split; discriminate. Qed.

(** Two things the final revision does around the guard.  With no feedback
    text the concatenation raises after the stage is written; and the Deploy
    branch of the dispatch writes "Deployed" over whatever [deploy] returned. *)
Example final_deploy_without_feedback_raises :
  deploy Final None false
    (with_decision (Some "approved") (sample_state "Deploy"))
  = Raised no_concat
      (with_stage "Deployment Failed"
         (with_decision (Some "approved") (sample_state "Deploy"))).
Proof. reflexivity. Qed.

Example final_dispatch_overwrites_failed_deployment :
  let st := with_feedback (Some "no edge cases")
              (with_decision (Some "failed") (sample_state "Deploy")) in
  stage (app_state (state_after
           (main_interaction Final None NoClick (mkSession st false false))))
  = "Deployed".
Proof. reflexivity. Qed.

(** ** Revision stages without feedback *)

(** C4 (amended). A revision node applied to a record whose feedback is
    absent or empty (and, for the three nodes that lower-case the language
    first, whose language is set) returns without consulting the model: the
    four artifacts, the decision and the feedback are unchanged and the stage
    is the corresponding review stage.  The history is unchanged in the first
    revision and in [revise_user_stories] and [fix_security_issues]; the final
    revision's [revise_design_docs], [fix_code_review] and [fix_test_cases]
    append one entry that records the skip. *)
Theorem revision_without_feedback_skips :
  forall (rev : revision) (llm : option service) (s : Stage)
         (node : node_function) (st : SDLCState),
    revision_node s = Some node ->
    truthy (feedback st) = false ->
    (lowers_language s = true -> target_language st <> None) ->
    let out := node rev llm st in
    raised out = false
    /\ artifacts (state_after out) = artifacts st
    /\ decision (state_after out) = decision st
    /\ feedback (state_after out) = feedback st
    /\ stage (state_after out) = stage_name (review_of s)
    /\ history (state_after out) = (history st ++ skip_entries rev s)%list
    /\ (forall llm' : option service, node rev llm' st = out).
Proof.
  intros rev llm s node st Hnode Hfb Hlang. cbv zeta.
  destruct s; try discriminate Hnode; injection Hnode as <-;
    cbv [lowers_language] in Hlang;
    try (destruct (target_language st) as [lang|] eqn:El;
         [clear Hlang | now elim Hlang]);
    unfold revise_user_stories, revise_design_docs, fix_code_review,
      fix_security_issues, fix_test_cases;
    rewrite ?El, Hfb;
    (split; [|split; [|split; [|split; [|split; [|split]]]]]);
    intros; destruct rev;
    repeat match goal with
           | l : option service |- _ => destruct l
           end;
    cbn; rewrite ?app_nil_r; reflexivity.
Qed.

Lemma revision_without_feedback_skips_witness :
  let st := sample_state "Fix Code Review" in
  let out := fix_code_review Final (Some (always "print(2)")) st in
  revision_node FixCode = Some fix_code_review
  /\ truthy (feedback st) = false
  /\ (lowers_language FixCode = true -> target_language st <> None)
  /\ artifacts (state_after out) = artifacts st
  /\ stage (state_after out) = "Code Review"
  /\ history (state_after out)
     = [("fix_code_review", "No feedback provided. Skipping code fixing.")].
Proof.
  cbv zeta. split; [reflexivity|]. split; [reflexivity|].
  split; [intros _; discriminate|].
  destruct (revision_without_feedback_skips Final (Some (always "print(2)"))
              FixCode fix_code_review (sample_state "Fix Code Review")
              eq_refl eq_refl ltac:(intros _; discriminate))
    as [_ [Ha [_ [_ [Hs [Hh _]]]]]].
  split; [exact Ha|]. split; [exact Hs | exact Hh].
Defined.

(** C4 as stated fails in the final revision: [revise_design_docs] applied
    to a record without feedback makes the history one entry longer. *)
Lemma final_revise_design_docs_skip_grows_history :
  let st := sample_state "Revise Design Docs" in
  let after := state_after (revise_design_docs Final None st) in
  truthy (feedback st) = false
  /\ List.length (history st) = 0
  /\ List.length (history after) = 1
  /\ List.length (history after) <> List.length (history st).
Proof. cbv zeta. repeat split. discriminate. Qed.

(** ** Where decision and feedback are cleared *)

(** C5 (amended). A revision node that gets to regenerate its artifact --
    feedback present, model initialised, no exception -- ends with the
    decision and the feedback cleared; the clearing is among the last writes
    of the node, not the first.  The generation nodes
    ([generate_user_stories], [create_design_docs], [generate_code],
    [write_test_cases]) never write either field: both come out as they went
    in. *)
Theorem decision_and_feedback_after_a_stage :
  forall (rev : revision) (llm : option service) (s : Stage)
         (node : node_function) (st : SDLCState),
    let out := node rev llm st in
    (revision_node s = Some node ->
     truthy (feedback st) = true ->
     llm <> None ->
     raised out = false ->
     decision (state_after out) = None
     /\ feedback (state_after out) = None
     /\ stage (state_after out) = stage_name (review_of s))
    /\ (generation_node s = Some node ->
        decision (state_after out) = decision st
        /\ feedback (state_after out) = feedback st).
Proof.
  intros rev llm s node st. cbv zeta. split.
  - intros Hnode Hfb Hllm.
    destruct llm as [invoke|]; [clear Hllm | now elim Hllm].
    destruct s; try discriminate Hnode; injection Hnode as <-;
      unfold revise_user_stories, revise_design_docs, fix_code_review,
        fix_security_issues, fix_test_cases, history_append;
      rewrite ?Hfb; cbn [negb];
      split_cases; intros Hr; try discriminate Hr;
      destruct rev; repeat split.
  - intros Hnode.
    destruct s; try discriminate Hnode; injection Hnode as <-;
      unfold generate_user_stories, create_design_docs, generate_code,
        write_test_cases, history_append;
      split_cases; destruct rev; split; reflexivity.
Qed.

Lemma decision_and_feedback_after_a_stage_witness :
  let st := with_feedback (Some "story 2 has no benefit")
              (with_decision (Some "feedback")
                 (sample_state "Revise User Stories")) in
  let out := revise_user_stories Final (Some (always "As a user, I want Y")) st in
  revision_node ReviseStories = Some revise_user_stories
  /\ truthy (feedback st) = true
  /\ Some (always "As a user, I want Y") <> None
  /\ raised out = false
  /\ decision (state_after out) = None
  /\ feedback (state_after out) = None.
Proof.
  cbv zeta. split; [reflexivity|]. split; [reflexivity|].
  split; [discriminate|]. split; [reflexivity|].
  destruct (proj1 (decision_and_feedback_after_a_stage Final
                     (Some (always "As a user, I want Y")) ReviseStories
                     revise_user_stories
                     (with_feedback (Some "story 2 has no benefit")
                        (with_decision (Some "feedback")
                           (sample_state "Revise User Stories"))))
                  eq_refl eq_refl ltac:(discriminate) eq_refl)
    as [Hd [Hf _]].
  split; [exact Hd | exact Hf].
Defined.

(** C5 as stated fails: [create_design_docs] runs to completion on a record
    approved at the story review, and the decision is still "approved". *)
Lemma create_design_docs_keeps_decision :
  let st := with_decision (Some "approved") (sample_state "Create Design Docs") in
  let out := create_design_docs Final (Some (always "the design")) st in
  raised out = false
  /\ stage (state_after out) = stage_name DesignReview
  /\ design_docs (state_after out) = Some "the design"
  /\ decision (state_after out) = Some "approved"
  /\ decision (state_after out) <> None.
Proof. cbv zeta. repeat split. discriminate. Qed.

(** The same with the feedback: code regenerated after a failed QA run still
    carries the QA verdict and its text into the code review. *)
Example generate_code_keeps_qa_feedback :
  let st := with_feedback (Some "no edge cases")
              (with_decision (Some "failed") (sample_state "Generate Code")) in
  let after := state_after (generate_code Final (Some (always "print(2)")) st) in
  stage after = "Code Review"
  /\ decision after = Some "failed"
  /\ feedback after = Some "no edge cases".
Proof. cbv zeta. repeat split. Qed.

(** ** Reading the reviewer's answer *)

Lemma not_prefixed_not_equal (p x : string) :
  startswith p x = false -> (x =? p) = false.
Proof.
  intros H. apply String.eqb_neq. intros ->.
  unfold startswith in H. now rewrite prefix_refl in H.
Qed.

(** The four reviews that test [startswith("approved")] accept both shapes of
    approval. *)
Lemma prefix_reviews_accept_approval (rev : revision) (invoke : service)
    (s : Stage) (node : node_function) (st : SDLCState) (raw : string) :
  review_node s = Some node ->
  s <> TestReview ->
  review_gets_to_model s st = true ->
  invoke (review_prompt s st) = Content raw ->
  startswith "approved" (lower (strip raw)) = true ->
  raised (node rev (Some invoke) st) = false
  /\ decision (state_after (node rev (Some invoke) st)) = Some "approved"
  /\ feedback (state_after (node rev (Some invoke) st)) = None.
Proof.
  intros Hnode Hs Hmodel Hraw Hok.
  destruct s; try discriminate Hnode; try (now elim Hs);
    injection Hnode as <-; cbv [review_prompt] in Hraw;
    unfold product_owner_review, design_review, code_review, security_review,
      bind, review_verdict, history_append.
  4:{ cbv [review_gets_to_model] in Hmodel.
      apply andb_prop in Hmodel as [Hcode Hlang]. rewrite Hcode. cbn [negb].
      destruct (target_language st); [|discriminate].
      rewrite Hraw, Hok. destruct rev; repeat split. }
  all: rewrite Hraw, Hok; destruct rev; repeat split.
Qed.

(** C6. The code at the input that breaks the claim.  The answer
    "approved: ..." is the approval shape the final revision's test review
    prompt asks for, and [code_review] takes it as an approval; but
    [review_test_cases] compares the whole answer with "approved", files it
    as unclear feedback, and the dispatch moves on to "Fix Test Cases".  The
    bare word is accepted. *)
Theorem test_review_rejects_approval_with_rationale :
  let answer := "approved: the tests cover the happy path" in
  let reviewed :=
    app_state (state_after
      (main_interaction Final (Some (always answer)) AskAI
         (sample_session "Test Case Review"))) in
  let code_reviewed :=
    app_state (state_after
      (main_interaction Final (Some (always answer)) AskAI
         (sample_session "Code Review"))) in
  let bare :=
    app_state (state_after
      (main_interaction Final (Some (always "approved")) AskAI
         (sample_session "Test Case Review"))) in
  startswith "approved" (lower (strip answer)) = true
  /\ decision reviewed = Some "feedback"
  /\ feedback reviewed
     = Some "LLM response unclear (python Test Review), please manually review and revise: 'approved: the tests cover the happy path'"
  /\ stage reviewed = "Fix Test Cases"
  /\ decision code_reviewed = Some "approved"
  /\ feedback code_reviewed = None
  /\ stage code_reviewed = "Security Review"
  /\ decision bare = Some "approved"
  /\ stage bare = "QA Testing".
Proof. cbv zeta. repeat split. Qed.

(** The first revision reads the answer the same way. *)
Example first_revision_test_review_rejects_rationale :
  let reviewed :=
    state_after (review_test_cases First
                   (Some (always "Approved: the tests cover the happy path"))
                   (sample_state "Test Case Review")) in
  decision reviewed = Some "feedback".
Proof. reflexivity. Qed.

(** C7 (amended). At every review node, an answer whose trimmed, lower-cased
    form starts neither with "approved" nor with "feedback:" yields the
    decision "feedback", never "approved", and the feedback field holds an
    advisory message that contains the answer in that trimmed, lower-cased
    form. *)
Theorem unclear_answer_is_feedback :
  forall (rev : revision) (invoke : service) (s : Stage)
         (node : node_function) (st : SDLCState) (raw : string),
    review_node s = Some node ->
    review_gets_to_model s st = true ->
    invoke (review_prompt s st) = Content raw ->
    let normal := lower (strip raw) in
    startswith "approved" normal = false ->
    startswith "feedback:" normal = false ->
    let out := node rev (Some invoke) st in
    raised out = false
    /\ decision (state_after out) = Some "feedback"
    /\ decision (state_after out) <> Some "approved"
    /\ exists before after : string,
         feedback (state_after out) = Some (before ++ normal ++ after)
         /\ contains normal (before ++ normal ++ after) = true.
Proof.
  intros rev invoke s node st raw Hnode Hmodel Hraw normal Hno Hnf. cbv zeta.
  subst normal.
  pose proof (not_prefixed_not_equal _ _ Hno) as Hne.
  destruct s; try discriminate Hnode; injection Hnode as <-;
    cbv [review_prompt review_gets_to_model] in Hraw, Hmodel;
    unfold product_owner_review, design_review, code_review, security_review,
      review_test_cases, bind, review_verdict, history_append.
  - rewrite Hraw, Hno, Hnf.
    split; [now destruct rev|]. split; [now destruct rev|].
    split; [destruct rev; discriminate|].
    exists "LLM response unclear, please manually review and revise: '", "'".
    split; [now destruct rev | apply contains_inside].
  - rewrite Hraw, Hno, Hnf.
    split; [now destruct rev|]. split; [now destruct rev|].
    split; [destruct rev; discriminate|].
    exists "LLM response unclear, please manually review and revise: '", "'".
    split; [now destruct rev | apply contains_inside].
  - rewrite Hraw, Hno, Hnf.
    split; [now destruct rev|]. split; [now destruct rev|].
    split; [destruct rev; discriminate|].
    exists ("LLM response unclear (" ++ fmt (target_language st)
            ++ " Code Review), please manually review and revise: '"), "'".
    split; [|apply contains_inside].
    destruct rev; cbn; now rewrite !append_assoc.
  - apply andb_prop in Hmodel as [Hcode Hlang]. rewrite Hcode. cbn [negb].
    destruct (target_language st) as [lang|]; [|discriminate].
    rewrite Hraw, Hno, Hnf.
    split; [now destruct rev|]. split; [now destruct rev|].
    split; [destruct rev; discriminate|].
    exists ("Potential security concerns identified (" ++ lang ++ "): "), "".
    split; [|apply contains_inside].
    destruct rev; cbn; now rewrite !append_assoc, append_empty_r.
  - destruct (target_language st) as [lang|]; [|discriminate].
    rewrite Hraw, Hne, Hnf.
    split; [now destruct rev|]. split; [now destruct rev|].
    split; [destruct rev; discriminate|].
    exists ("LLM response unclear (" ++ lang
            ++ " Test Review), please manually review and revise: '"), "'".
    split; [|apply contains_inside].
    destruct rev; cbn; now rewrite !append_assoc.
Qed.

Lemma unclear_answer_is_feedback_witness :
  let st := sample_state "Design Review" in
  let out := design_review Final (Some (always "  Maybe OK ")) st in
  review_node DesignReview = Some design_review
  /\ review_gets_to_model DesignReview st = true
  /\ always "  Maybe OK " (review_prompt DesignReview st) = Content "  Maybe OK "
  /\ startswith "approved" (lower (strip "  Maybe OK ")) = false
  /\ startswith "feedback:" (lower (strip "  Maybe OK ")) = false
  /\ decision (state_after out) = Some "feedback"
  /\ feedback (state_after out)
     = Some "LLM response unclear, please manually review and revise: 'maybe ok'".
Proof.
  cbv zeta. do 5 (split; [reflexivity|]).
  destruct (unclear_answer_is_feedback Final (always "  Maybe OK ") DesignReview
              design_review (sample_state "Design Review") "  Maybe OK "
              eq_refl eq_refl eq_refl eq_refl eq_refl)
    as [_ [Hd _]].
  split; [exact Hd | reflexivity].
Defined.

(** C7 as stated fails: the text the model sent is not kept in the feedback
    field.  The answer "Maybe OK" matches neither shape, the decision is
    "feedback", and the feedback holds 'maybe ok' inside an advisory, in which
    the text as sent does not occur. *)
Lemma unclear_answer_text_is_not_kept :
  let raw := "Maybe OK" in
  let after := state_after (code_review Final (Some (always raw))
                              (sample_state "Code Review")) in
  startswith "approved" (lower (strip raw)) = false
  /\ startswith "feedback:" (lower (strip raw)) = false
  /\ decision after = Some "feedback"
  /\ feedback after
     = Some "LLM response unclear (python Code Review), please manually review and revise: 'maybe ok'"
  /\ feedback after <> Some raw
  /\ contains raw (fmt (feedback after)) = false.
Proof. cbv zeta. repeat split. discriminate. Qed.

(** * Further properties of the code *)

(** ** More on [clean_llm_code_output] *)

Section MoreStringFacts.

Lemma prefix_append_l (a b s : string) :
  prefix (a ++ b) s = true -> prefix a s = true.
Proof.
  revert s. induction a as [|x a IH]; intros [|y s] H; simpl in *;
    try reflexivity; try discriminate.
  destruct (ascii_dec x y); [now apply IH | discriminate].
Qed.

Lemma lstrip_head (s : string) :
  lstrip s = "" \/ exists c r, lstrip s = String c r /\ isspace c = false.
Proof.
  induction s as [|c s IH]; simpl; [now left|].
  destruct (isspace c) eqn:E; [exact IH|]. right. now exists c, s.
Qed.

Lemma rstrip_idempotent (s : string) : rstrip (rstrip s) = rstrip s.
Proof.
  induction s as [|c s IH]; [reflexivity|]. simpl.
  destruct (rstrip s) as [|a r] eqn:E.
  - destruct (isspace c) eqn:Ec; [reflexivity|]. simpl. now rewrite Ec.
  - change (rstrip (String c (String a r)))
      with (match rstrip (String a r) with
            | "" => if isspace c then "" else String c ""
            | String _ _ as r' => String c r'
            end).
    now rewrite IH.
Qed.

Lemma strip_idempotent (s : string) : strip (strip s) = strip s.
Proof.
  unfold strip. destruct (lstrip_head s) as [-> | [c [r [-> Hc]]]];
    [reflexivity|].
  rewrite (rstrip_solid c r Hc). simpl lstrip. rewrite Hc.
  rewrite <- (rstrip_solid c r Hc). apply rstrip_idempotent.
Qed.

Lemma length_lstrip (s : string) : length (lstrip s) <= length s.
Proof.
  induction s as [|c s IH]; simpl; [lia|]. destruct (isspace c); simpl; lia.
Qed.

Lemma length_rstrip (s : string) : length (rstrip s) <= length s.
Proof.
  induction s as [|c s IH]; simpl; [lia|].
  destruct (rstrip s); [destruct (isspace c)|]; simpl in *; lia.
Qed.

Lemma length_strip (s : string) : length (strip s) <= length s.
Proof.
  unfold strip. pose proof (length_rstrip (lstrip s)).
  pose proof (length_lstrip s). lia.
Qed.

Lemma length_skip (n : nat) (s : string) : length (skip n s) <= length s.
Proof.
  revert s. induction n as [|n IH]; intros [|c s]; simpl; try lia.
  specialize (IH s). lia.
Qed.

Lemma length_take (n : nat) (s : string) : length (take n s) <= length s.
Proof.
  revert s. induction n as [|n IH]; intros [|c s]; simpl; try lia.
  specialize (IH s). lia.
Qed.

End MoreStringFacts.

(** Once the opening is gone, the closing fence and the white space around
    the rest go; what stood between the opening and the first line feed
    stays. *)
Lemma clean_rest (t s : string) :
  let rest := t ++ nl ++ s ++ nl ++ fence in
  strip (if endswith fence rest then take (length rest - 3) rest else rest)
  = strip (t ++ nl ++ s).
Proof.
  intros rest.
  assert (E : rest = ((t ++ nl ++ s) ++ nl) ++ fence).
  { unfold rest. now rewrite !append_assoc. }
  rewrite E, endswith_append, length_append.
  replace (length ((t ++ nl ++ s) ++ nl) + length fence - 3)
    with (length ((t ++ nl ++ s) ++ nl)) by (simpl length; lia).
  rewrite take_append. now apply strip_append_blank.
Qed.

(** X1. Whatever the text and the language, the result of
    [clean_llm_code_output] is trimmed: stripping it again changes nothing. *)
Theorem clean_llm_code_output_is_trimmed :
  forall (content : string) (language : option string),
    strip (clean_llm_code_output content language)
    = clean_llm_code_output content language.
Proof. intros. unfold clean_llm_code_output. apply strip_idempotent. Qed.

(** X2. Text that, once trimmed, neither starts nor ends with a triple
    backtick comes out of [clean_llm_code_output] trimmed and otherwise
    untouched, for every language argument. *)
Theorem clean_llm_code_output_keeps_unfenced_text :
  forall (content : string) (language : option string),
    startswith fence (strip content) = false ->
    endswith fence (strip content) = false ->
    clean_llm_code_output content language = strip content.
Proof.
  intros content language Hs He. unfold clean_llm_code_output. cbv zeta.
  rewrite strip_fence_tag.
  replace (startswith (fence ++ rstrip _) (strip content)) with false.
  2:{ symmetry. unfold startswith in *.
      destruct (prefix (fence ++ _) (strip content)) eqn:E; [|reflexivity].
      apply prefix_append_l in E. congruence. }
  rewrite andb_false_r, Hs, He. apply strip_idempotent.
Qed.

Lemma clean_llm_code_output_keeps_unfenced_text_witness :
  startswith fence (strip ("  x = `a` " ++ nl)) = false
  /\ endswith fence (strip ("  x = `a` " ++ nl)) = false
  /\ clean_llm_code_output ("  x = `a` " ++ nl) (Some "python") = "x = `a`".
Proof.
  split; [reflexivity|]. split; [reflexivity|].
  exact (clean_llm_code_output_keeps_unfenced_text ("  x = `a` " ++ nl)
           (Some "python") eq_refl eq_refl).
Defined.

(** X3. [clean_llm_code_output] only removes characters: its result is never
    longer than the text it was given. *)
Theorem clean_llm_code_output_never_longer :
  forall (content : string) (language : option string),
    length (clean_llm_code_output content language) <= length content.
Proof.
  intros content language. unfold clean_llm_code_output. cbv zeta.
  eapply Nat.le_trans; [apply length_strip|].
  match goal with
  | |- length (if endswith fence ?c1 then _ else _) <= _ =>
      assert (H1 : length c1 <= length content)
  end.
  { eapply Nat.le_trans; [|apply (length_strip content)].
    destruct (_ && _); [apply length_skip|].
    destruct (startswith fence _); [apply length_skip | apply Nat.le_refl]. }
  destruct (endswith _ _); [|exact H1].
  eapply Nat.le_trans; [apply length_take | exact H1].
Qed.

(** X4. The language tag is matched as a prefix of the fence line: in a
    block opened by the fence, the lower-cased language name and any further
    text [t], that text stays in the result, in front of the code (cleaning a
    javascript block for the language java leaves "script" behind). *)
Theorem clean_llm_code_output_keeps_tail_of_longer_tag :
  forall (L t s : string),
    nonempty L = true ->
    clean_llm_code_output
      (fence ++ rstrip (lower L) ++ t ++ nl ++ s ++ nl ++ fence) (Some L)
    = strip (t ++ nl ++ s).
Proof.
  intros L t s HL. destruct L as [|c L]; [discriminate|].
  unfold clean_llm_code_output. cbv zeta.
  remember (lower (String c L)) as low eqn:Elow.
  replace (fence ++ rstrip low ++ t ++ nl ++ s ++ nl ++ fence)
    with (fence ++ (rstrip low ++ t ++ nl ++ s ++ nl) ++ fence)
    by (now rewrite !append_assoc).
  rewrite strip_fenced, strip_fence_tag.
  replace (fence ++ (rstrip low ++ t ++ nl ++ s ++ nl) ++ fence)
    with ((fence ++ rstrip low) ++ (t ++ nl ++ s ++ nl ++ fence))
    by (now rewrite !append_assoc).
  unfold startswith. rewrite prefix_append. cbn [truthy andb].
  rewrite skip_append. apply clean_rest.
Qed.

Lemma clean_llm_code_output_keeps_tail_of_longer_tag_witness :
  nonempty "java" = true
  /\ clean_llm_code_output
       (fence ++ "javascript" ++ nl ++ "let x = 1;" ++ nl ++ fence) (Some "java")
     = "script" ++ nl ++ "let x = 1;".
Proof.
  split; [reflexivity|].
  exact (clean_llm_code_output_keeps_tail_of_longer_tag "java" "script"
           "let x = 1;" eq_refl).
Defined.

(** X5. Without a language (absent or empty, as the script stores a
    language typed as white space only) only the bare fence is removed: the
    tag of a tagged block stays in the result as its first line. *)
Theorem clean_llm_code_output_without_language_keeps_tag :
  forall (language : option string) (tag s : string),
    truthy language = false ->
    clean_llm_code_output (fence ++ tag ++ nl ++ s ++ nl ++ fence) language
    = strip (tag ++ nl ++ s).
Proof.
  intros language tag s Hl. unfold clean_llm_code_output. cbv zeta. rewrite Hl.
  replace (fence ++ tag ++ nl ++ s ++ nl ++ fence)
    with (fence ++ (tag ++ nl ++ s ++ nl) ++ fence)
    by (now rewrite !append_assoc).
  rewrite strip_fenced. cbn [andb].
  replace (startswith fence (fence ++ (tag ++ nl ++ s ++ nl) ++ fence)) with true
    by (symmetry; apply prefix_append).
  change (skip 3 (fence ++ (tag ++ nl ++ s ++ nl) ++ fence))
    with ((tag ++ nl ++ s ++ nl) ++ fence).
  replace ((tag ++ nl ++ s ++ nl) ++ fence) with (tag ++ nl ++ s ++ nl ++ fence)
    by (now rewrite !append_assoc).
  apply clean_rest.
Qed.

Lemma clean_llm_code_output_without_language_keeps_tag_witness :
  truthy (Some "") = false
  /\ clean_llm_code_output
       (fence ++ "python" ++ nl ++ "print(1)" ++ nl ++ fence) (Some "")
     = "python" ++ nl ++ "print(1)".
Proof.
  split; [reflexivity|].
  exact (clean_llm_code_output_without_language_keeps_tag (Some "") "python"
           "print(1)" eq_refl).
Defined.

(** ** What a run may write *)

Ltac same_or_excluded :=
  intros;
  first [ reflexivity
        | split; first [reflexivity | cbn; congruence]
        | cbn; congruence
        | exfalso;
          match goal with
          | H : ~ In _ _ |- _ => apply H; simpl; tauto
          | H : ?a <> ?a |- _ => now apply H
          end ].

Ltac history_grows :=
  cbn [state_after history with_stage with_feedback with_decision with_history
       with_code with_test_cases with_user_stories with_design_docs
       with_deployment_reasoning with_target_language with_user_input];
  first [ exists []; now rewrite app_nil_r
        | rewrite <- ?app_assoc; eexists; reflexivity ].

Ltac footprint_of_node :=
  unfold footprint; unfold_nodes; split_cases;
  (split; [|split; [|split; [|split; [|split]]]]);
  first [ history_grows | same_or_excluded ].

(** Every node function keeps to the footprint of the stage it is called at. *)
Lemma node_footprint (details : bool) (name : string) (f : node_function)
    (rev : revision) (llm : option service) (st : SDLCState) :
  stage_node details name = Some f ->
  footprint name st (state_after (f rev llm st)).
Proof.
  unfold stage_node. intros H.
  repeat match type of H with
         | (if ?a =? ?b then _ else _) = _ =>
             destruct (String.eqb_spec a b) as [->|_];
             [injection H as <-; footprint_of_node|]
         end.
  discriminate.
Qed.

Lemma footprint_refl (name : string) (st : SDLCState) : footprint name st st.
Proof.
  unfold footprint. repeat split; try reflexivity.
  exists []. now rewrite app_nil_r.
Qed.

(** The footprint looks at the payload of the result only. *)
Lemma footprint_payload (name : string) (st a b : SDLCState) :
  payload a = payload b -> footprint name st a -> footprint name st b.
Proof.
  unfold footprint, payload.
  intros [= E1 E2 E3 E4 E5 E6 E7 _] H.
  rewrite <- E1, <- E2, <- E3, <- E4, <- E5, <- E6, <- E7. exact H.
Qed.

Lemma review_stage_footprint (name : string)
    (reviewer : SDLCState -> outcome SDLCState)
    (approved_stage feedback_stage : string) (ev : click) (sess : session) :
  footprint name (app_state sess) (state_after (reviewer (app_state sess))) ->
  footprint name (app_state sess)
    (app_state (state_after
       (review_stage reviewer approved_stage feedback_stage ev sess))).
Proof.
  intros H. unfold review_stage, bind.
  destruct ev; try apply footprint_refl.
  - destruct (reviewer (app_state sess)); cbn in *; [|exact H].
    split_cases; (eapply footprint_payload; [|exact H]); reflexivity.
  - eapply footprint_payload; [|apply footprint_refl]. reflexivity.
  - split_cases; [|apply footprint_refl].
    eapply footprint_payload; [|apply footprint_refl]. reflexivity.
Qed.

Lemma bind_node_footprint (name : string) (o : outcome SDLCState)
    (finish : SDLCState -> SDLCState) (sess : session) :
  (forall s, payload (finish s) = payload s) ->
  footprint name (app_state sess) (state_after o) ->
  footprint name (app_state sess)
    (app_state (state_after
       (bind o (fun s => with_app_state s sess)
          (fun s => Returned (with_app_state (finish s) sess))))).
Proof.
  intros Hp H. destruct o; cbn in *; [|exact H].
  eapply footprint_payload; [|exact H]. symmetry. apply Hp.
Qed.

(** One run of the script, whatever the stage, keeps to the footprint of
    that stage, unless the reset button starts a new record. *)
Lemma script_run_footprint (rev : revision) (llm : option service)
    (ev : click) (sess : session) :
  ev <> StartNewWorkflow ->
  footprint (stage (app_state sess)) (app_state sess)
    (app_state (state_after (script_run rev llm ev sess))).
Proof.
  intros Hev. unfold script_run, display_area. unfold bind at 1.
  destruct (_ && _); [apply footprint_refl|].
  unfold main_interaction. cbv zeta.
  repeat match goal with
         | |- context [if (?a =? ?b) then _ else _] =>
             destruct (String.eqb_spec a b) as [E|_];
             [rewrite E;
              try match goal with
                  | |- context [with_lang ?s ?k] =>
                      destruct (with_lang_cases s k) as [-> | ->];
                      [|rewrite <- E; apply footprint_refl]
                  end;
              rewrite <- ?E at 2 3|]
         end;
    try apply footprint_refl.
  all: try (rewrite run_node_app_state;
            eapply (node_footprint false); reflexivity).
  all: try (apply review_stage_footprint;
            eapply (node_footprint false); reflexivity).
  - destruct ev; try apply footprint_refl.
    split_cases; [|apply footprint_refl].
    unfold footprint.
    (split; [|split; [|split; [|split; [|split]]]]);
      first [ history_grows | same_or_excluded ].
  - destruct rev.
    + destruct (with_lang_cases sess
                  (bind (qa_testing First llm false (app_state sess))
                     (fun s => with_app_state s sess)
                     (fun s =>
                        Returned
                          (with_app_state
                             (if decision_is "passed" s
                              then with_stage "Deploy" s
                              else with_stage "Code Review" s) sess))))
        as [-> | ->]; [|rewrite <- E; apply footprint_refl].
      apply (bind_node_footprint "QA Testing"
               (qa_testing First llm false (app_state sess))
               (fun s => if decision_is "passed" s then with_stage "Deploy" s
                         else with_stage "Code Review" s)).
      * intros s. now destruct (decision_is "passed" s).
      * apply (node_footprint false "QA Testing"
                 (fun rev llm => qa_testing rev llm false)). reflexivity.
    + apply (bind_node_footprint "QA Testing"
               (qa_testing Final llm (show_llm_details sess) (app_state sess))
               (fun s => if decision_is "passed" s then with_stage "Deploy" s
                         else with_stage "Generate Code" s)).
      * intros s. now destruct (decision_is "passed" s).
      * apply (node_footprint (show_llm_details sess) "QA Testing"
                 (fun rev llm => qa_testing rev llm (show_llm_details sess))).
        reflexivity.
  - apply (bind_node_footprint "Deploy"
             (deploy rev llm false (app_state sess)) (with_stage "Deployed")).
    + reflexivity.
    + apply (node_footprint false "Deploy" (fun rev llm => deploy rev llm false)).
      reflexivity.
  - destruct ev; try apply footprint_refl. now elim Hev.
Qed.

(** X6. The history is append-only: a run of the script, in either revision
    and at any stage, leaves a history that extends the one it found, unless
    the reset button starts a new record. *)
Theorem history_is_append_only :
  forall (rev : revision) (llm : option service) (ev : click) (sess : session),
    ev <> StartNewWorkflow ->
    exists added : list (string * string),
      history (app_state (state_after (script_run rev llm ev sess)))
      = (history (app_state sess) ++ added)%list.
Proof.
  intros rev llm ev sess Hev.
  exact (proj1 (proj2 (script_run_footprint rev llm ev sess Hev))).
Qed.

Lemma history_is_append_only_witness :
  let sess := sample_session "Create Design Docs" in
  NoClick <> StartNewWorkflow
  /\ exists added,
       history (app_state (state_after
                  (script_run Final (Some (always "the design")) NoClick sess)))
       = (history (app_state sess) ++ added)%list.
Proof.
  cbv zeta. split; [discriminate|].
  apply history_is_append_only. discriminate.
Defined.

(** X7. Requirements and target language are written at the "User Input"
    stage only: a run at any other stage, short of a reset, leaves both as
    they were, whatever the model answers. *)
Theorem requirements_and_language_are_fixed :
  forall (rev : revision) (llm : option service) (ev : click) (sess : session),
    stage (app_state sess) <> "User Input" ->
    ev <> StartNewWorkflow ->
    let after := app_state (state_after (script_run rev llm ev sess)) in
    user_input after = user_input (app_state sess)
    /\ target_language after = target_language (app_state sess).
Proof.
  intros rev llm ev sess Hs Hev.
  exact (proj1 (script_run_footprint rev llm ev sess Hev) Hs).
Qed.

Lemma requirements_and_language_are_fixed_witness :
  let sess := sample_session "Generate Code" in
  let after :=
    app_state (state_after
      (script_run Final (Some (always "print(2)")) NoClick sess)) in
  stage (app_state sess) <> "User Input"
  /\ NoClick <> StartNewWorkflow
  /\ user_input after = "a todo list"
  /\ target_language after = Some "python".
Proof.
  cbv zeta. split; [discriminate|]. split; [discriminate|].
  exact (requirements_and_language_are_fixed Final (Some (always "print(2)"))
           NoClick (sample_session "Generate Code")
           ltac:(discriminate) ltac:(discriminate)).
Defined.

(** X8. Each artifact is written only at the stages that produce it: short
    of a reset, the user stories change only at "Generate User Stories" and
    "Revise User Stories", the design only at "Create Design Docs" and
    "Revise Design Docs", the code only at "Generate Code", "Fix Code Review"
    and "Fix Security", the test cases only at "Write Test Cases" and "Fix
    Test Cases". *)
Theorem artifacts_change_only_at_their_stages :
  forall (rev : revision) (llm : option service) (ev : click) (sess : session),
    ev <> StartNewWorkflow ->
    let before := app_state sess in
    let after := app_state (state_after (script_run rev llm ev sess)) in
    (~ In (stage before) ["Generate User Stories"; "Revise User Stories"] ->
     user_stories after = user_stories before)
    /\ (~ In (stage before) ["Create Design Docs"; "Revise Design Docs"] ->
        design_docs after = design_docs before)
    /\ (~ In (stage before) ["Generate Code"; "Fix Code Review"; "Fix Security"] ->
        code after = code before)
    /\ (~ In (stage before) ["Write Test Cases"; "Fix Test Cases"] ->
        test_cases after = test_cases before).
Proof.
  intros rev llm ev sess Hev.
  exact (proj2 (proj2 (script_run_footprint rev llm ev sess Hev))).
Qed.

Lemma artifacts_change_only_at_their_stages_witness :
  let sess := sample_session "Fix Test Cases" in
  let after :=
    app_state (state_after
      (script_run Final (Some (always "assert 1 == 1")) NoClick
         (with_app_state
            (with_feedback (Some "add an edge case") (app_state sess)) sess))) in
  NoClick <> StartNewWorkflow
  /\ code after = Some "print(1)"
  /\ test_cases after = Some "assert 1 == 1".
Proof.
  cbv zeta. split; [discriminate|]. split; [|reflexivity].
  refine (proj1 (proj2 (proj2
            (artifacts_change_only_at_their_stages Final
               (Some (always "assert 1 == 1")) NoClick
               (with_app_state
                  (with_feedback (Some "add an edge case")
                     (app_state (sample_session "Fix Test Cases")))
                  (sample_session "Fix Test Cases"))
               ltac:(discriminate)))) _).
  cbn. intros [H|[H|[H|[]]]]; discriminate.
Defined.

(** ** What every reachable session satisfies *)

Section LowerFacts.

Lemma isspace_lower_char (c : ascii) : isspace (lower_char c) = isspace c.
Proof. destruct c as [[] [] [] [] [] [] [] []]; reflexivity. Qed.

Lemma lower_char_idempotent (c : ascii) :
  lower_char (lower_char c) = lower_char c.
Proof. destruct c as [[] [] [] [] [] [] [] []]; reflexivity. Qed.

Lemma lower_idempotent (s : string) : lower (lower s) = lower s.
Proof.
  induction s as [|c s IH]; simpl; [reflexivity|].
  now rewrite lower_char_idempotent, IH.
Qed.

Lemma lower_append (a b : string) : lower (a ++ b) = lower a ++ lower b.
Proof. induction a as [|c a IH]; simpl; [reflexivity | now rewrite IH]. Qed.

Lemma lower_lstrip (s : string) : lower (lstrip s) = lstrip (lower s).
Proof.
  induction s as [|c s IH]; simpl; [reflexivity|].
  rewrite isspace_lower_char. destruct (isspace c); [exact IH | reflexivity].
Qed.

Lemma lower_rstrip (s : string) : lower (rstrip s) = rstrip (lower s).
Proof.
  induction s as [|c s IH]; simpl; [reflexivity|].
  rewrite <- IH, isspace_lower_char.
  destruct (rstrip s); simpl; [now destruct (isspace c) | reflexivity].
Qed.

Lemma lower_strip (s : string) : lower (strip s) = strip (lower s).
Proof. unfold strip. now rewrite lower_rstrip, lower_lstrip. Qed.

Lemma lower_skip (n : nat) (s : string) : lower (skip n s) = skip n (lower s).
Proof.
  revert s. induction n as [|n IH]; intros [|c s]; simpl; try reflexivity.
  apply IH.
Qed.

(** The language the start button stores is lower-case and trimmed. *)
Lemma stored_language_normal (x : string) :
  lower (lower (strip x)) = lower (strip x)
  /\ strip (lower (strip x)) = lower (strip x).
Proof.
  split; [apply lower_idempotent|].
  now rewrite <- lower_strip, strip_idempotent.
Qed.

End LowerFacts.

Lemma split_1_prefixed (sep s : string) :
  startswith sep s = true -> split_1 sep s = Some (skip (length sep) s).
Proof.
  unfold startswith. intros H. destruct s; cbn [split_1]; now rewrite H.
Qed.

Ltac project_state :=
  cbn [state_after app_state with_app_state with_show_feedback_box
       stage user_input target_language user_stories design_docs code
       test_cases decision feedback history deployment_reasoning
       with_stage with_feedback with_decision with_history with_code
       with_test_cases with_user_stories with_design_docs
       with_deployment_reasoning with_target_language with_user_input] in *.

Lemma script_run_keeps_invariant (rev : revision) (llm : option service)
    (ev : click) (sess : session) :
  session_invariant sess ->
  session_invariant (state_after (script_run rev llm ev sess)).
Proof.
  intros Hinv. pose proof Hinv as (I1 & I2 & I3 & I4).
  unfold script_run, display_area. unfold bind at 1.
  destruct (_ && _); [exact Hinv|].
  unfold main_interaction. cbv zeta. cbn [state_after].
  repeat match goal with
         | |- context [if (?a =? ?b) then _ else _] =>
             destruct (String.eqb_spec a b) as [E|_]
         end;
    try exact Hinv;
    unfold_nodes; split_cases; try exact Hinv;
    unfold session_invariant; project_state;
    (split; [|split; [|split]]);
    try reflexivity;
    try (intros; discriminate);
    try assumption;
    try (intros Hn; exfalso;
         match goal with
         | H : target_language (app_state sess) = Some _ |- _ =>
             rewrite H in Hn; discriminate Hn
         | E : stage (app_state sess) = _ |- _ =>
             rewrite (I1 Hn) in E; discriminate E
         end);
    try (intros l Hl; apply I2; congruence);
    try (intros Hd; exfalso; rewrite E in Hd; discriminate Hd);
    try (intros _; now apply decision_is_true).
  - intros l [= <-]. apply stored_language_normal.
  - exfalso. apply decision_is_true in I3; [|exact E].
    match goal with
    | H : negb (decision_is "passed" (app_state sess)) = true |- _ =>
        rewrite I3 in H; discriminate H
    end.
Qed.

Lemma reachable_invariant (rev : revision) (sess : session) :
  reachable rev sess -> session_invariant sess.
Proof.
  intros H. induction H as [|llm ev sess _ IH].
  - unfold session_invariant. cbn. repeat split; try reflexivity; discriminate.
  - now apply script_run_keeps_invariant.
Qed.

Lemma dispatched_named (name : string) :
  dispatched name = true ->
  exists s : Stage, name = stage_name s /\ s <> DeploymentFailed.
Proof.
  unfold dispatched, dispatched_stages. cbn [existsb]. intros H.
  repeat match type of H with
         | (?a =? ?b) || _ = true =>
             destruct (String.eqb_spec a b) as [E|_];
             [rewrite E; clear H E | cbn [orb] in H]
         end;
    try discriminate H.
  all: match goal with
       | |- exists s, ?n = stage_name s /\ _ =>
           first
             [ exists InitialInput; split; [reflexivity | discriminate]
             | exists GenerateStories; split; [reflexivity | discriminate]
             | exists StoryReview; split; [reflexivity | discriminate]
             | exists ReviseStories; split; [reflexivity | discriminate]
             | exists DesignGen; split; [reflexivity | discriminate]
             | exists DesignReview; split; [reflexivity | discriminate]
             | exists ReviseDesign; split; [reflexivity | discriminate]
             | exists CodeGen; split; [reflexivity | discriminate]
             | exists CodeReview; split; [reflexivity | discriminate]
             | exists FixCode; split; [reflexivity | discriminate]
             | exists SecurityReview; split; [reflexivity | discriminate]
             | exists FixSecurity; split; [reflexivity | discriminate]
             | exists WriteTests; split; [reflexivity | discriminate]
             | exists TestReview; split; [reflexivity | discriminate]
             | exists FixTests; split; [reflexivity | discriminate]
             | exists QA; split; [reflexivity | discriminate]
             | exists Deploy; split; [reflexivity | discriminate]
             | exists Deployed; split; [reflexivity | discriminate] ]
       end.
Qed.

(** X10. Every session the script can get into, in either revision, is at
    one of the eighteen stages the dispatch has a branch for: the stage
    "Deployment Failed" is never reached, and a session at "Deploy" always
    carries the decision "passed", so the check in the final revision's
    [deploy] never fires. *)
Theorem reachable_stages :
  forall (rev : revision) (sess : session),
    reachable rev sess ->
    (exists s : Stage,
        stage (app_state sess) = stage_name s /\ s <> DeploymentFailed)
    /\ (stage (app_state sess) = stage_name Deploy ->
        decision (app_state sess) = Some "passed").
Proof.
  intros rev sess H. destruct (reachable_invariant rev sess H) as (_ & _ & I3 & I4).
  split; [now apply dispatched_named | exact I3].
Qed.

Lemma reachable_stages_witness :
  let sess :=
    state_after (script_run Final (Some (always "PASS: fine")) NoClick
      (state_after (script_run Final None (StartSDLC "a todo list" "Go")
                      initial_session))) in
  reachable Final sess
  /\ exists s : Stage,
       stage (app_state sess) = stage_name s /\ s <> DeploymentFailed.
Proof.
  cbv zeta.
  assert (R : reachable Final
                (state_after (script_run Final (Some (always "PASS: fine")) NoClick
                   (state_after (script_run Final None
                                   (StartSDLC "a todo list" "Go")
                                   initial_session))))).
  { apply reach_run. apply reach_run. apply reach_start. }
  split; [exact R|]. exact (proj1 (reachable_stages Final _ R)).
Defined.

(** X11. In every session the script can get into, once the stage is past
    "User Input" the target language is set, and it is stored trimmed and in
    lower case; so the calls [language.lower()] and [.capitalize()] on it
    never meet [None]. *)
Theorem reachable_language_is_set :
  forall (rev : revision) (sess : session),
    reachable rev sess ->
    stage (app_state sess) <> "User Input" ->
    exists l : string,
      target_language (app_state sess) = Some l
      /\ lower l = l /\ strip l = l.
Proof.
  intros rev sess H Hs.
  destruct (reachable_invariant rev sess H) as (I1 & I2 & _ & _).
  destruct (target_language (app_state sess)) as [l|] eqn:E.
  - exists l. split; [reflexivity|]. now apply I2.
  - exfalso. apply Hs. now rewrite (I1 eq_refl).
Qed.

Lemma reachable_language_is_set_witness :
  let sess :=
    state_after (script_run Final None (StartSDLC "a todo list" "  Go ")
                   initial_session) in
  reachable Final sess
  /\ stage (app_state sess) <> "User Input"
  /\ target_language (app_state sess) = Some "go".
Proof.
  cbv zeta.
  assert (R : reachable Final
                (state_after (script_run Final None
                                (StartSDLC "a todo list" "  Go ")
                                initial_session))).
  { apply reach_run. apply reach_start. }
  split; [exact R|]. split; [discriminate|].
  destruct (reachable_language_is_set Final _ R ltac:(discriminate))
    as [l [Hl _]].
  cbn in Hl. cbn. exact eq_refl.
Defined.

(** ** Exceptions *)

(** The [split] after a successful [startswith] finds its separator. *)
Ltac found_separator :=
  match goal with
  | H : startswith ?sep ?c = true, N : split_1 ?sep ?c = None |- _ =>
      rewrite (split_1_prefixed sep c H) in N; discriminate N
  end.

Ltac from_the_model :=
  match goal with
  | L : ?llm = Some ?invoke, F : ?invoke ?p = Failure ?e
    |- model_raised ?llm ?e =>
      exists invoke, p; split; [exact L | exact F]
  | F : ?invoke ?p = Failure ?e |- model_raised (Some ?invoke) ?e =>
      exists invoke, p; split; [reflexivity | exact F]
  end.

(** X9. A node function that raises has written nothing: in both revisions
    the record comes out of the failed call as it went in.  The one
    exception is the final revision's [deploy], which is left out here (it
    writes the stage before it raises). *)
Theorem raising_node_writes_nothing :
  forall (details : bool) (name : string) (f : node_function)
         (rev : revision) (llm : option service) (st st' : SDLCState)
         (e : string),
    stage_node details name = Some f ->
    ~ (rev = Final /\ name = "Deploy") ->
    f rev llm st = Raised e st' ->
    st' = st.
Proof.
  intros details name f rev llm st st' e H Hnot.
  unfold stage_node in H.
  repeat match type of H with
         | (if ?a =? ?b then _ else _) = _ =>
             destruct (String.eqb_spec a b) as [E|_];
             [injection H as <-; try rewrite E in Hnot; clear E;
              unfold_nodes; split_cases;
              intros R; try discriminate R; try found_separator;
              try (injection R as _ <-; reflexivity);
              try (exfalso; apply Hnot; now split)|]
         end.
  discriminate H.
Qed.

Lemma raising_node_writes_nothing_witness :
  let st := sample_state "Write Test Cases" in
  stage_node false "Write Test Cases" = Some write_test_cases
  /\ ~ (First = Final /\ "Write Test Cases" = "Deploy")
  /\ write_test_cases First (Some (failing "rate limit")) st
     = Raised "rate limit" st
  /\ (forall st' e,
        write_test_cases First (Some (failing "rate limit")) st = Raised e st' ->
        st' = st).
Proof.
  cbv zeta. split; [reflexivity|]. split; [intros [H _]; discriminate H|].
  split; [reflexivity|]. intros st' e R.
  exact (raising_node_writes_nothing false "Write Test Cases"
           write_test_cases First (Some (failing "rate limit"))
           (sample_state "Write Test Cases") st' e eq_refl
           ltac:(intros [H _]; discriminate H) R).
Defined.

Lemma with_same_app_state (sess : session) :
  with_app_state (app_state sess) sess = sess.
Proof. now destruct sess. Qed.

Lemma invariant_run_raises_model_error (rev : revision) (llm : option service)
    (ev : click) (sess sess' : session) (e : string) :
  session_invariant sess ->
  script_run rev llm ev sess = Raised e sess' ->
  sess' = sess /\ model_raised llm e.
Proof.
  intros (I1 & I2 & I3 & I4).
  unfold script_run, display_area. unfold bind at 1.
  destruct (_ && _) eqn:D.
  { exfalso. destruct (target_language (app_state sess)) eqn:T.
    - now rewrite andb_false_r in D.
    - rewrite (I1 eq_refl) in D. discriminate D. }
  unfold main_interaction. cbv zeta.
  repeat match goal with
         | |- context [if (?a =? ?b) then _ else _] =>
             destruct (String.eqb_spec a b) as [E|_]
         end;
    try discriminate;
    unfold_nodes; split_cases; intros R; try discriminate R;
    try found_separator;
    try (exfalso;
         match goal with
         | T : target_language (app_state sess) = None |- _ =>
             first [rewrite (I1 T) in E | rewrite (I1 eq_refl) in E];
             discriminate E
         end);
    try (exfalso; apply decision_is_true in I3; [|exact E];
         match goal with
         | H : negb (decision_is "passed" (app_state sess)) = true |- _ =>
             rewrite I3 in H; discriminate H
         end);
    try (injection R as <- <-; rewrite with_same_app_state;
         split; [reflexivity | from_the_model]).
Qed.

(** X12. From a session the script can get into, a run raises only when
    the model call raised: the exception is the one the model raised, and the
    session is left exactly as it was.  (No [AttributeError] on a missing
    language, no [TypeError] in [deploy], no [IndexError] while reading an
    answer.) *)
Theorem reachable_run_raises_only_model_errors :
  forall (rev : revision) (llm : option service) (ev : click)
         (sess sess' : session) (e : string),
    reachable rev sess ->
    script_run rev llm ev sess = Raised e sess' ->
    sess' = sess /\ model_raised llm e.
Proof.
  intros rev llm ev sess sess' e H.
  apply invariant_run_raises_model_error. now apply (reachable_invariant rev).
Qed.

Lemma reachable_run_raises_only_model_errors_witness :
  let sess :=
    state_after (script_run First (Some (always "stories"))
                   (StartSDLC "a todo list" "Go") initial_session) in
  reachable First sess
  /\ script_run First (Some (failing "rate limit")) NoClick sess
     = Raised "rate limit" sess
  /\ model_raised (Some (failing "rate limit")) "rate limit".
Proof.
  cbv zeta.
  assert (R : reachable First
                (state_after (script_run First (Some (always "stories"))
                                (StartSDLC "a todo list" "Go") initial_session))).
  { apply reach_run. apply reach_start. }
  split; [exact R|]. split; [reflexivity|].
  exact (proj2 (reachable_run_raises_only_model_errors First
                  (Some (failing "rate limit")) NoClick _ _ "rate limit" R
                  eq_refl)).
Defined.

(** The model never raising, a run from a reachable session returns. *)
Example reachable_run_with_answering_model_returns :
  forall (rev : revision) (invoke : service) (ev : click) (sess : session),
    reachable rev sess ->
    (forall p e, invoke p <> Failure e) ->
    raised (script_run rev (Some invoke) ev sess) = false.
Proof.
  intros rev invoke ev sess R Hok.
  destruct (script_run rev (Some invoke) ev sess) as [s|e s] eqn:E;
    [reflexivity|].
  destruct (invariant_run_raises_model_error rev (Some invoke) ev sess s e
              (reachable_invariant rev sess R) E)
    as [_ (i & p & [= <-] & F)].
  now elim (Hok p e).
Qed.

(** ** The QA verdict *)

(** X13. When [qa_testing] gets an answer from the model, the decision is
    "passed" exactly when the trimmed answer starts with "PASS:" (upper case,
    with the colon) and "failed" for every other answer; the call returns in
    both revisions. *)
Theorem qa_passes_exactly_on_pass_prefix :
  forall (rev : revision) (invoke : service) (details : bool)
         (st : SDLCState) (raw : string),
    truthy (code st) = true ->
    truthy (test_cases st) = true ->
    invoke (qa_testing_prompt st) = Content raw ->
    let out := qa_testing rev (Some invoke) details st in
    raised out = false
    /\ decision (state_after out)
       = Some (if startswith "PASS:" (strip raw) then "passed" else "failed")
    /\ stage (state_after out) = "QA Testing".
Proof.
  intros rev invoke details st raw Hc Ht Hraw. cbv zeta.
  unfold qa_testing. rewrite Hc, Ht. cbn [negb orb].
  assert (Hp : forall entry,
             invoke (qa_testing_prompt (log entry st)) = Content raw)
    by (intros; exact Hraw).
  destruct rev, details; rewrite ?Hp, ?Hraw; unfold qa_verdict, bind;
    destruct (startswith "PASS:" (strip raw)) eqn:P;
    rewrite ?(split_1_prefixed _ _ P);
    try (destruct (startswith "FAIL:" (strip raw)) eqn:F;
         rewrite ?(split_1_prefixed _ _ F));
    repeat split.
Qed.

Lemma qa_passes_exactly_on_pass_prefix_witness :
  let st := sample_state "QA Testing" in
  let out := qa_testing Final (Some (always "pass: looks fine")) false st in
  truthy (code st) = true
  /\ truthy (test_cases st) = true
  /\ always "pass: looks fine" (qa_testing_prompt st) = Content "pass: looks fine"
  /\ decision (state_after out) = Some "failed".
Proof.
  cbv zeta. do 3 (split; [reflexivity|]).
  exact (proj1 (proj2 (qa_passes_exactly_on_pass_prefix Final
                         (always "pass: looks fine") false
                         (sample_state "QA Testing") "pass: looks fine"
                         eq_refl eq_refl eq_refl))).
Defined.

Lemma invariant_display_returns (sess : session) :
  target_language (app_state sess) <> None -> display_area sess = Returned sess.
Proof.
  intros H. unfold display_area.
  destruct (target_language (app_state sess)); [|now elim H].
  now rewrite andb_false_r.
Qed.

Lemma script_run_with_language (rev : revision) (llm : option service)
    (ev : click) (sess : session) :
  target_language (app_state sess) <> None ->
  script_run rev llm ev sess = main_interaction rev llm ev sess.
Proof.
  intros H. unfold script_run. now rewrite (invariant_display_returns sess H).
Qed.

(** X14. With the model not initialised QA is simulated as passed: a record
    at "QA Testing" that has a language, code and test cases moves to
    "Deploy" with the decision "passed", and the next run deploys it, both
    without any model call. *)
Theorem without_model_qa_passes_and_deploys :
  forall (rev : revision) (ev ev' : click) (sess : session),
    stage (app_state sess) = "QA Testing" ->
    target_language (app_state sess) <> None ->
    truthy (code (app_state sess)) = true ->
    truthy (test_cases (app_state sess)) = true ->
    let tested := state_after (script_run rev None ev sess) in
    let deployed := state_after (script_run rev None ev' tested) in
    stage (app_state tested) = "Deploy"
    /\ decision (app_state tested) = Some "passed"
    /\ feedback (app_state tested) = Some "Basic QA simulation passed."
    /\ stage (app_state deployed) = "Deployed".
Proof.
  intros rev ev ev' sess Hs Hl Hc Ht. cbv zeta.
  rewrite (script_run_with_language rev None ev sess Hl).
  assert (E : main_interaction rev None ev sess
              = Returned
                  (with_app_state
                     (with_stage "Deploy"
                        (state_after
                           (qa_testing rev None (show_llm_details sess)
                              (app_state sess)))) sess)).
  { unfold main_interaction. rewrite Hs. cbn [String.eqb Ascii.eqb Bool.eqb].
    unfold with_lang, qa_testing. rewrite Hc, Ht.
    destruct (target_language (app_state sess)); [|now elim Hl].
    now destruct rev. }
  rewrite E. cbn [state_after].
  set (tested := with_app_state _ sess) in *.
  assert (Hl' : target_language (app_state tested) <> None).
  { unfold tested, qa_testing. rewrite Hc, Ht. now destruct rev. }
  assert (Hd : decision (app_state tested) = Some "passed").
  { unfold tested, qa_testing. rewrite Hc, Ht. now destruct rev. }
  split; [reflexivity|]. split; [exact Hd|].
  split; [unfold tested, qa_testing; rewrite Hc, Ht; now destruct rev|].
  rewrite (script_run_with_language rev None ev' tested Hl').
  unfold main_interaction.
  replace (stage (app_state tested)) with "Deploy" by reflexivity.
  cbn [String.eqb Ascii.eqb Bool.eqb]. unfold with_lang, deploy, decision_is.
  destruct (target_language (app_state tested)); [|now elim Hl'].
  rewrite Hd. now destruct rev.
Qed.

Lemma without_model_qa_passes_and_deploys_witness :
  let sess := sample_session "QA Testing" in
  let tested := state_after (script_run Final None NoClick sess) in
  let deployed := state_after (script_run Final None NoClick tested) in
  stage (app_state sess) = "QA Testing"
  /\ target_language (app_state sess) <> None
  /\ truthy (code (app_state sess)) = true
  /\ truthy (test_cases (app_state sess)) = true
  /\ stage (app_state tested) = "Deploy"
  /\ stage (app_state deployed) = "Deployed".
Proof.
  cbv zeta. split; [reflexivity|]. split; [discriminate|].
  split; [reflexivity|]. split; [reflexivity|].
  destruct (without_model_qa_passes_and_deploys Final NoClick NoClick
              (sample_session "QA Testing") eq_refl ltac:(discriminate)
              eq_refl eq_refl)
    as [H1 [_ [_ H4]]].
  split; [exact H1 | exact H4].
Defined.

(** ** Stages without a model, answers with feedback *)

(** X15. With the model not initialised, a run at a generation stage or at
    a revision stage that has feedback to work on leaves the session exactly
    as it was (a language being set, and not empty at "Generate Code"): the
    [st.rerun()] that follows repeats the same run. *)
Theorem without_model_automatic_stages_stall :
  forall (rev : revision) (ev : click) (sess : session) (lang : string),
    target_language (app_state sess) = Some lang ->
    In (stage (app_state sess))
       ["Generate User Stories"; "Create Design Docs"; "Generate Code";
        "Write Test Cases"; "Revise User Stories"; "Revise Design Docs";
        "Fix Code Review"; "Fix Security"; "Fix Test Cases"] ->
    (stage (app_state sess) = "Generate Code" -> nonempty lang = true) ->
    (In (stage (app_state sess))
        ["Revise User Stories"; "Revise Design Docs"; "Fix Code Review";
         "Fix Security"; "Fix Test Cases"] ->
     truthy (feedback (app_state sess)) = true) ->
    script_run rev None ev sess = Returned sess.
Proof.
  intros rev ev sess lang Hl Hin Hgen Hfb.
  rewrite script_run_with_language by (rewrite Hl; discriminate).
  unfold main_interaction. cbv zeta.
  cbn [In] in Hin, Hfb.
  repeat match type of Hin with
         | _ \/ _ => destruct Hin as [Hin | Hin]
         end;
    try contradiction;
    rewrite <- Hin in *; cbn [String.eqb Ascii.eqb Bool.eqb];
    unfold_nodes; rewrite ?Hl;
    try (rewrite Hfb by tauto);
    try (destruct lang; [now discriminate (Hgen eq_refl)|]);
    cbn; now rewrite ?with_same_app_state.
Qed.

Lemma without_model_automatic_stages_stall_witness :
  let sess := sample_session "Create Design Docs" in
  target_language (app_state sess) = Some "python"
  /\ script_run Final None NoClick sess = Returned sess.
Proof.
  cbv zeta. split; [reflexivity|].
  apply (without_model_automatic_stages_stall Final NoClick
           (sample_session "Create Design Docs") "python" eq_refl).
  - cbn. tauto.
  - discriminate.
  - cbn. intros [H|[H|[H|[H|[H|[]]]]]]; discriminate H.
Defined.

Lemma feedback_prefix_excludes_approval (c : string) :
  startswith "feedback:" c = true ->
  startswith "approved" c = false /\ (c =? "approved") = false.
Proof.
  intros H.
  assert (Hp : startswith "approved" c = false).
  { destruct c as [|x c]; [discriminate H|].
    unfold startswith in *. cbn [prefix] in *.
    destruct (ascii_dec "f" x) as [<-|]; [|discriminate H].
    now destruct (ascii_dec "a" "f"). }
  split; [exact Hp | now apply not_prefixed_not_equal].
Qed.

(** X16. An answer of the shape "feedback: ..." is stored lower-cased: at
    every review node the decision becomes "feedback" and the feedback field
    holds what follows the prefix in the trimmed, lower-cased answer, trimmed
    again -- so capital letters in the reviewer's remarks are lost. *)
Theorem reviewer_feedback_is_stored_lower_case :
  forall (rev : revision) (invoke : service) (s : Stage)
         (node : node_function) (st : SDLCState) (raw : string),
    review_node s = Some node ->
    review_gets_to_model s st = true ->
    invoke (review_prompt s st) = Content raw ->
    startswith "feedback:" (lower (strip raw)) = true ->
    let out := node rev (Some invoke) st in
    let kept := strip (skip 9 (lower (strip raw))) in
    raised out = false
    /\ decision (state_after out) = Some "feedback"
    /\ feedback (state_after out) = Some kept
    /\ lower kept = kept.
Proof.
  intros rev invoke s node st raw Hnode Hmodel Hraw Hfb. cbv zeta.
  destruct (feedback_prefix_excludes_approval _ Hfb) as [Hno Hne].
  assert (Hlow : lower (strip (skip 9 (lower (strip raw))))
                 = strip (skip 9 (lower (strip raw)))).
  { now rewrite lower_strip, lower_skip, lower_idempotent. }
  destruct s; try discriminate Hnode; injection Hnode as <-;
    cbv [review_prompt review_gets_to_model] in Hraw, Hmodel;
    unfold product_owner_review, design_review, code_review, security_review,
      review_test_cases, bind, review_verdict, history_append;
    try (apply andb_prop in Hmodel as [Hcode Hlang]; rewrite Hcode;
         cbn [negb]);
    try (destruct (target_language st) as [lang|]; [|discriminate]);
    rewrite Hraw, ?Hno, ?Hne, Hfb, (split_1_prefixed _ _ Hfb);
    destruct rev; repeat split; exact Hlow.
Qed.

Lemma reviewer_feedback_is_stored_lower_case_witness :
  let st := sample_state "Code Review" in
  let out :=
    code_review Final (Some (always "Feedback: rename MyClass to TodoList")) st in
  review_node CodeReview = Some code_review
  /\ review_gets_to_model CodeReview st = true
  /\ startswith "feedback:" (lower (strip "Feedback: rename MyClass to TodoList"))
     = true
  /\ feedback (state_after out) = Some "rename myclass to todolist".
Proof.
  cbv zeta. do 3 (split; [reflexivity|]).
  exact (proj1 (proj2 (proj2
           (reviewer_feedback_is_stored_lower_case Final
              (always "Feedback: rename MyClass to TodoList") CodeReview
              code_review (sample_state "Code Review")
              "Feedback: rename MyClass to TodoList"
              eq_refl eq_refl eq_refl eq_refl)))).
Defined.

(** ** Edge paths of the dispatch *)

Lemma strip_blank (w : string) : blank w = true -> strip w = "".
Proof. intros H. unfold strip. now rewrite (lstrip_blank_all w H). Qed.

(** X17. A target language typed as white space only passes the start
    check: it is stored as the empty string and the record moves on to
    "Generate User Stories".  A record that reaches "Generate Code" with the
    empty language is sent back to "User Input" without a model call, with
    everything but the stage as it was. *)
Theorem blank_language_is_accepted_then_bounced :
  forall (rev : revision) (llm : option service) (ev : click)
         (sess : session) (requirements lang : string),
    nonempty requirements = true ->
    nonempty lang = true ->
    blank lang = true ->
    (stage (app_state sess) = "User Input" ->
     let started :=
       app_state (state_after
         (main_interaction rev llm (StartSDLC requirements lang) sess)) in
     stage started = "Generate User Stories"
     /\ user_input started = requirements
     /\ target_language started = Some "")
    /\ (stage (app_state sess) = "Generate Code" ->
        target_language (app_state sess) = Some "" ->
        main_interaction rev llm ev sess
        = Returned (with_app_state (with_stage "User Input" (app_state sess))
                      sess)).
Proof.
  intros rev llm ev sess requirements lang Hr Hl Hb. split.
  - intros Hs. cbv zeta. unfold main_interaction. rewrite Hs.
    cbn [String.eqb Ascii.eqb Bool.eqb]. rewrite Hr, Hl. cbn.
    now rewrite (strip_blank lang Hb).
  - intros Hs Ht. unfold main_interaction. rewrite Hs.
    cbn [String.eqb Ascii.eqb Bool.eqb].
    unfold with_lang, run_node, generate_code, bind. now rewrite Ht.
Qed.

Lemma blank_language_is_accepted_then_bounced_witness :
  let started :=
    app_state (state_after
      (main_interaction Final None (StartSDLC "a todo list" "   ")
         initial_session)) in
  nonempty "a todo list" = true
  /\ nonempty "   " = true
  /\ blank "   " = true
  /\ stage (app_state initial_session) = "User Input"
  /\ stage started = "Generate User Stories"
  /\ target_language started = Some "".
Proof.
  cbv zeta. do 4 (split; [reflexivity|]).
  destruct (proj1 (blank_language_is_accepted_then_bounced Final None NoClick
                     initial_session "a todo list" "   "
                     eq_refl eq_refl eq_refl) eq_refl)
    as [H1 [_ H3]].
  split; [exact H1 | exact H3].
Defined.

(** Submitting feedback at the review stage of [r]. *)
Lemma submit_feedback_at_review (rev : revision) (llm : option service)
    (r : Stage) (sess : session) (text lang : string) :
  revision_node r <> None ->
  stage (app_state sess) = stage_name (review_of r) ->
  target_language (app_state sess) = Some lang ->
  show_feedback_box sess = true ->
  nonempty text = true ->
  main_interaction rev llm (SubmitFeedback text) sess
  = Returned
      (with_show_feedback_box false
         (with_app_state
            (with_stage (stage_name r)
               (with_feedback (Some text)
                  (with_decision (Some "feedback") (app_state sess))))
            sess)).
Proof.
  intros Hr Hs Hl Hbox Ht.
  destruct r; try (now elim Hr); cbv [review_of stage_name] in *;
    unfold main_interaction; rewrite Hs;
    cbn [String.eqb Ascii.eqb Bool.eqb];
    unfold with_lang, review_stage; rewrite ?Hl, Hbox, Ht; reflexivity.
Qed.

(** A revision stage with feedback and an answering model. *)
Lemma revision_run_returns_to_review (rev : revision) (invoke : service)
    (ev : click) (r : Stage) (sess : session) (lang : string) :
  revision_node r <> None ->
  stage (app_state sess) = stage_name r ->
  target_language (app_state sess) = Some lang ->
  truthy (feedback (app_state sess)) = true ->
  (forall p e, invoke p <> Failure e) ->
  let revised := state_after (main_interaction rev (Some invoke) ev sess) in
  stage (app_state revised) = stage_name (review_of r)
  /\ decision (app_state revised) = None
  /\ feedback (app_state revised) = None
  /\ show_feedback_box revised = show_feedback_box sess.
Proof.
  intros Hr Hs Hl Hfb Hok. cbv zeta.
  destruct r; try (now elim Hr); cbv [review_of stage_name] in *;
    unfold main_interaction; rewrite Hs;
    cbn [String.eqb Ascii.eqb Bool.eqb];
    unfold with_lang, run_node, bind, revise_user_stories, revise_design_docs,
      fix_code_review, fix_security_issues, fix_test_cases, history_append;
    rewrite ?Hl, Hfb; cbn [negb];
    match goal with
    | |- context [invoke ?p] =>
        destruct (invoke p) as [answer|e] eqn:A; [|now elim (Hok p e)]
    end;
    destruct rev; repeat split.
Qed.

(** X18. The feedback loop closes.  At the review stage of a revision
    stage [r], with the feedback box open, submitting a non-empty text moves
    the record to [r] with that text as feedback; the next run, the model
    answering, comes back to the same review stage with decision and
    feedback cleared and the box closed. *)
Theorem feedback_then_revision_returns_to_review :
  forall (rev : revision) (invoke : service) (r : Stage) (sess : session)
         (text lang : string),
    revision_node r <> None ->
    stage (app_state sess) = stage_name (review_of r) ->
    target_language (app_state sess) = Some lang ->
    show_feedback_box sess = true ->
    nonempty text = true ->
    (forall p e, invoke p <> Failure e) ->
    let asked :=
      state_after (main_interaction rev (Some invoke) (SubmitFeedback text) sess) in
    let revised :=
      state_after (main_interaction rev (Some invoke) NoClick asked) in
    stage (app_state asked) = stage_name r
    /\ decision (app_state asked) = Some "feedback"
    /\ feedback (app_state asked) = Some text
    /\ stage (app_state revised) = stage_name (review_of r)
    /\ decision (app_state revised) = None
    /\ feedback (app_state revised) = None
    /\ show_feedback_box revised = false.
Proof.
  intros rev invoke r sess text lang Hr Hs Hl Hbox Ht Hok. cbv zeta.
  rewrite (submit_feedback_at_review rev (Some invoke) r sess text lang
             Hr Hs Hl Hbox Ht).
  cbn [state_after].
  set (asked := with_show_feedback_box false _).
  split; [reflexivity|]. split; [reflexivity|]. split; [reflexivity|].
  destruct (revision_run_returns_to_review rev invoke NoClick r asked lang Hr
              eq_refl Hl)
    as (H1 & H2 & H3 & H4).
  - destruct text; [discriminate Ht | reflexivity].
  - exact Hok.
  - repeat split; assumption.
Qed.

Lemma feedback_then_revision_returns_to_review_witness :
  let sess := mkSession (sample_state "Design Review") true false in
  let asked :=
    state_after (main_interaction Final (Some (always "a better design"))
                   (SubmitFeedback "split the module") sess) in
  let revised :=
    state_after (main_interaction Final (Some (always "a better design"))
                   NoClick asked) in
  revision_node ReviseDesign <> None
  /\ stage (app_state sess) = stage_name (review_of ReviseDesign)
  /\ stage (app_state asked) = "Revise Design Docs"
  /\ stage (app_state revised) = "Design Review"
  /\ design_docs (app_state revised) = Some "a better design".
Proof.
  cbv zeta. split; [discriminate|]. split; [reflexivity|].
  destruct (feedback_then_revision_returns_to_review Final
              (always "a better design") ReviseDesign
              (mkSession (sample_state "Design Review") true false)
              "split the module" "python"
              ltac:(discriminate) eq_refl eq_refl eq_refl eq_refl
              ltac:(discriminate))
    as [H1 [_ [_ [H4 _]]]].
  split; [exact H1|]. split; [exact H4 | reflexivity].
Defined.

(** X19. [display_output] decides on the title without regard to letter
    case: a title that contains "code" or "test" in any mix of upper and
    lower case is shown as a code block, whatever the content, in the
    lower-cased language, or as plaintext when the language is absent or
    empty. *)
Theorem display_output_code_titles :
  forall (before word after content : string) (language : option string),
    lower word = "code" \/ lower word = "test" ->
    display_output (before ++ word ++ after) content language
    = CodeBlock content
        match language with
        | Some (String _ _ as l) => lower l
        | _ => "plaintext"
        end.
Proof.
  intros before word after content language Hw. unfold display_output.
  rewrite !lower_append.
  destruct Hw as [-> | ->]; rewrite contains_inside; cbn [orb];
    [reflexivity | now rewrite orb_true_r].
Qed.

Lemma display_output_code_titles_witness :
  (lower "Code" = "code" \/ lower "Code" = "test")
  /\ display_output ("Generated Python " ++ "Code" ++ "") "print(1)" (Some "Python")
     = CodeBlock "print(1)" "python".
Proof.
  split; [now left|].
  exact (display_output_code_titles "Generated Python " "Code" "" "print(1)"
           (Some "Python") (or_introl eq_refl)).
Defined.

(** X20. A review that finds its input missing decides without the model.
    At "Security Review" the AI button on a record without code stores the
    decision "feedback" with a fixed text and moves to "Fix Security"; at "QA
    Testing" a record without code or without test cases is marked "failed"
    and sent to "Generate Code" (final revision) or "Code Review" (first
    revision).  Neither depends on the model. *)
Theorem missing_input_is_decided_without_model :
  forall (rev : revision) (llm : option service) (ev : click) (sess : session),
    target_language (app_state sess) <> None ->
    (stage (app_state sess) = "Security Review" ->
     truthy (code (app_state sess)) = false ->
     main_interaction rev llm AskAI sess
     = Returned
         (with_app_state
            (with_stage "Fix Security"
               (with_feedback (Some "No code available for security review.")
                  (with_decision (Some "feedback") (app_state sess))))
            sess))
    /\ (stage (app_state sess) = "QA Testing" ->
        truthy (code (app_state sess)) && truthy (test_cases (app_state sess))
        = false ->
        main_interaction rev llm ev sess
        = Returned
            (with_app_state
               (with_stage
                  match rev with
                  | First => "Code Review"
                  | Final => "Generate Code"
                  end
                  (with_stage "QA Testing"
                     (with_feedback (Some "Code or test cases not found.")
                        (with_decision (Some "failed") (app_state sess)))))
               sess)).
Proof.
  intros rev llm ev sess Hl.
  destruct (target_language (app_state sess)) as [lang|] eqn:El;
    [clear Hl | now elim Hl].
  split.
  - intros Hs Hc. unfold main_interaction. rewrite Hs.
    cbn [String.eqb Ascii.eqb Bool.eqb].
    unfold with_lang, review_stage, security_review, bind.
    now rewrite El, Hc.
  - intros Hs Hc. unfold main_interaction. rewrite Hs.
    cbn [String.eqb Ascii.eqb Bool.eqb].
    unfold with_lang, qa_testing, bind. rewrite El.
    replace (negb (truthy (code (app_state sess)))
             || negb (truthy (test_cases (app_state sess)))) with true
      by (now rewrite <- negb_andb, Hc).
    now destruct rev.
Qed.

Lemma missing_input_is_decided_without_model_witness :
  let sess := with_app_state (with_code (Some "") (sample_state "Security Review"))
                (sample_session "Security Review") in
  target_language (app_state sess) <> None
  /\ stage (app_state sess) = "Security Review"
  /\ truthy (code (app_state sess)) = false
  /\ stage (app_state (state_after
              (main_interaction Final (Some (always "approved")) AskAI sess)))
     = "Fix Security".
Proof.
  cbv zeta. split; [discriminate|]. split; [reflexivity|].
  split; [reflexivity|].
  now rewrite (proj1 (missing_input_is_decided_without_model Final
                        (Some (always "approved")) NoClick
                        (with_app_state
                           (with_code (Some "") (sample_state "Security Review"))
                           (sample_session "Security Review"))
                        ltac:(discriminate)) eq_refl eq_refl).
Defined.

Lemma play_reachable (rev : revision) (steps : list (option service * click))
    (sess : session) :
  reachable rev sess -> reachable rev (play rev steps sess).
Proof.
  revert sess. induction steps as [|[llm ev] rest IH]; intros sess H;
    [exact H|].
  cbn [play]. apply IH. now apply reach_run.
Qed.

(** X21. "Deployed" is final but for the reset: from a session the script
    can get into at the stage "Deployed", the button "Start New Workflow"
    gives exactly the initial session, and a run with any other click leaves
    the session as it is. *)
Theorem deployed_is_final_until_reset :
  forall (rev : revision) (llm : option service) (ev : click) (sess : session),
    reachable rev sess ->
    stage (app_state sess) = "Deployed" ->
    script_run rev llm StartNewWorkflow sess = Returned initial_session
    /\ (ev <> StartNewWorkflow -> script_run rev llm ev sess = Returned sess).
Proof.
  intros rev llm ev sess R Hs.
  destruct (reachable_invariant rev sess R) as (I1 & _ & _ & _).
  assert (Hl : target_language (app_state sess) <> None).
  { intros Hn. rewrite (I1 Hn) in Hs. discriminate Hs. }
  rewrite !script_run_with_language by exact Hl.
  unfold main_interaction. rewrite Hs. cbn [String.eqb Ascii.eqb Bool.eqb].
  unfold with_lang.
  destruct (target_language (app_state sess)); [|now elim Hl].
  split; [reflexivity|]. intros Hev. destruct ev; try reflexivity.
  now elim Hev.
Qed.

Lemma deployed_is_final_until_reset_witness :
  let sess := play Final whole_project initial_session in
  reachable Final sess
  /\ stage (app_state sess) = "Deployed"
  /\ script_run Final None StartNewWorkflow sess = Returned initial_session.
Proof.
  cbv zeta.
  assert (R : reachable Final (play Final whole_project initial_session)).
  { apply play_reachable. apply reach_start. }
  split; [exact R|]. split; [reflexivity|].
  exact (proj1 (deployed_is_final_until_reset Final None NoClick _ R eq_refl)).
Defined.
